(** * blender-importASE: the host-integration layer of the ASE importer

    A shallow embedding of [blender_importASE/__init__.py]: the operator
    [ImportASEMolecule], the preferences class [ASEAddonPreferences], the
    dependency check, and [register]/[unregister].

    The module is glue code around three external parties: Blender's class
    registry and menus ([bpy]), the Python runtime ([import], [sys.path],
    [subprocess]) and the geometry builder [ui.import_ase_molecule].  The
    embedding threads an explicit [World] through an exception monad; every
    external call is recorded in a chronological [trace] and its outcome is
    read from an environment [Env], so the theorems hold for every behaviour
    of the external parties. *)

From stdpp Require Import gmap strings list.
From Stdlib Require Import ZArith.
From Stdlib Require Import Floats.SpecFloat.

Local Open Scope string_scope.
Local Open Scope Z_scope.
Local Open Scope list_scope.

(** ** Python values and exceptions *)

(** A Python float is an IEEE-754 binary64 value: zero, infinity, NaN, or a
    sign, a mantissa and a binary exponent. *)
Definition float : Type := spec_float.

(** A [FloatProperty] stores a float32 and reads as a Python float: 0.5 is
    exact, 0.6 reads as the float32 nearest to it, 0.6000000238418579. *)
Definition float_0_5 : float := S754_finite false 4503599627370496 (-53).
Definition float_0_6 : float := S754_finite false 5404319767592960 (-53).

(** The values that travel to [import_ase_molecule]: [FloatProperty] reads as
    a Python float, [IntProperty] as an int, [BoolProperty] as a bool,
    [EnumProperty] and [StringProperty] as a str. *)
Inductive pyval :=
| PyFloat (f : float)
| PyInt (z : Z)
| PyBool (b : bool)
| PyStr (s : string).

(** The exception classes the module meets.  [ModuleNotFoundError] is a
    subclass of [ImportError]; [OtherException] stands for any class that is
    none of the listed ones nor a subclass of one of them. *)
Inductive exn :=
| ImportError (msg : string)
| ModuleNotFoundError (msg : string)
| CalledProcessError (returncode : Z) (cmd : list string)
| RuntimeError (msg : string)
| ValueError (msg : string)
| KeyError (key : string)
| TypeError (msg : string)
| OSError (msg : string)
| OtherException (cls : string).

(** [isinstance(e, ImportError)] *)
Definition is_ImportError (e : exn) : bool :=
  match e with
  | ImportError _ | ModuleNotFoundError _ => true
  | _ => false
  end.

(** [isinstance(e, subprocess.CalledProcessError)] *)
Definition is_CalledProcessError (e : exn) : bool :=
  match e with
  | CalledProcessError _ _ => true
  | _ => false
  end.

(** [isinstance(e, RuntimeError)] *)
Definition is_RuntimeError (e : exn) : bool :=
  match e with
  | RuntimeError _ => true
  | _ => false
  end.

(** ** The host *)

(** Classes known to Blender's class registry. *)
Inductive bpy_class :=
| cls_ASEAddonPreferences
| cls_ImportASEMolecule
| cls_other (name : string).

Global Instance bpy_class_eq_dec : EqDecision bpy_class.
Proof. solve_decision. Defined.

(** Draw callbacks that can be attached to a menu. *)
Inductive draw_func :=
| fn_menu_func_import
| fn_other (name : string).

Global Instance draw_func_eq_dec : EqDecision draw_func.
Proof. solve_decision. Defined.

(** What a [layout] receives from a draw callback. *)
Inductive ui_item :=
| ui_label (text icon : string)
| ui_prop (name : string)
| ui_operator (idname text : string).

(** [class ASEAddonPreferences]: one [BoolProperty], default [False]. *)
Record ASEAddonPreferences := { install_failed : bool }.

Definition ASEAddonPreferences_default : ASEAddonPreferences :=
  {| install_failed := false |}.

(** Calls that leave the module, in the order they are made. *)
Inductive event :=
| ev_print (msg : string)
| ev_register_class (c : bpy_class)
| ev_unregister_class (c : bpy_class)
| ev_menu_append (f : draw_func)
| ev_menu_remove (f : draw_func)
| ev_import (module : string)
| ev_check_call (argv : list string)
| ev_invalidate_caches
| ev_import_ase_molecule (args : list pyval) (kwargs : list (string * pyval))
| ev_fileselect_add.

(** The part of the process the module reads and writes. *)
Record World := {
  classes : list bpy_class;                 (* bpy's registered classes *)
  import_menu : list draw_func;             (* bpy.types.TOPBAR_MT_file_import *)
  addons : gmap string ASEAddonPreferences; (* bpy.context.preferences.addons *)
  sys_path : list string;                   (* sys.path *)
  trace : list event
}.

Definition set_classes (l : list bpy_class) (w : World) : World :=
  {| classes := l; import_menu := import_menu w; addons := addons w;
     sys_path := sys_path w; trace := trace w |}.

Definition set_import_menu (l : list draw_func) (w : World) : World :=
  {| classes := classes w; import_menu := l; addons := addons w;
     sys_path := sys_path w; trace := trace w |}.

Definition set_addons (m : gmap string ASEAddonPreferences) (w : World) : World :=
  {| classes := classes w; import_menu := import_menu w; addons := m;
     sys_path := sys_path w; trace := trace w |}.

Definition set_sys_path (l : list string) (w : World) : World :=
  {| classes := classes w; import_menu := import_menu w; addons := addons w;
     sys_path := l; trace := trace w |}.

Definition emit (e : event) (w : World) : World :=
  {| classes := classes w; import_menu := import_menu w; addons := addons w;
     sys_path := sys_path w; trace := trace w ++ [e] |}.

(** The registration state, without the log of calls. *)
Definition host_state (w : World)
  : list bpy_class * list draw_func * gmap string ASEAddonPreferences * list string :=
  (classes w, import_menu w, addons w, sys_path w).

(** The external parties.  An outcome may depend on everything that happened
    before (the whole [World], trace included).  The external calls are taken
    not to write the components of [World] themselves. *)
Record Env := {
  module_name : string;                   (* __name__ *)
  sys_executable : string;                (* sys.executable *)
  script_path_user : option string;       (* bpy.utils.script_path_user(), may be None *)
  os_path_join : string → string → string;(* os.path.join of the platform *)
  ext_import : World → string → option exn;        (* None: the import succeeds *)
  ext_run : World → list string → exn + Z;         (* spawn failure, or exit status *)
  ext_import_ase_molecule :
    World → list pyval → list (string * pyval) → option exn
}.

(** ** State and exceptions *)

Inductive outcome (A : Type) :=
| Return (a : A)
| Raise (e : exn).
Arguments Return {A} a.
Arguments Raise {A} e.

Definition M (A : Type) : Type := World → outcome A * World.

Global Instance M_ret : MRet M := λ A a w, (Return a, w).

Global Instance M_bind : MBind M := λ A B k m w,
  match m w with
  | (Return a, w') => k a w'
  | (Raise e, w') => (Raise e, w')
  end.

Definition raise {A} (e : exn) : M A := fun w => (Raise e, w).

(** [try: body except ...: handler]: [handler e] is [None] when no [except]
    clause matches [e], which then propagates. *)
Definition try_except {A} (body : M A) (handler : exn → option (M A)) : M A :=
  fun w =>
    match body w with
    | (Return a, w') => (Return a, w')
    | (Raise e, w') =>
        match handler e with
        | Some h => h w'
        | None => (Raise e, w')
        end
    end.

Definition get {A} (f : World → A) : M A := fun w => (Return (f w), w).

Definition modify (f : World → World) : M unit := fun w => (Return tt, f w).

Definition log (e : event) : M unit := modify (emit e).

(** ** The host and runtime calls the module makes *)

(** [print(msg)] *)
Definition print (msg : string) : M unit := log (ev_print msg).

(** [bpy.utils.register_class(c)]: [ValueError] when [c] is registered already. *)
Definition register_class (c : bpy_class) : M unit :=
  log (ev_register_class c);;
  cs ← get classes;
  if decide (c ∈ cs)
  then raise (ValueError "register_class(...): already registered as a subclass")
  else modify (set_classes (cs ++ [c])).

(** The message of the [RuntimeError] of [unregister_class]. *)
Definition msg_not_registered : string :=
  "unregister_class(...):, missing bl_rna attribute from 'RNAMeta' instance (may not be registered)".

(** [bpy.utils.unregister_class(c)]: [RuntimeError] when [c] is not registered
    (the error the [except] clause of [unregister] is written for). *)
Definition unregister_class (c : bpy_class) : M unit :=
  log (ev_unregister_class c);;
  cs ← get classes;
  if decide (c ∈ cs)
  then modify (set_classes (filter (λ x, x ≠ c) cs))
  else raise (RuntimeError msg_not_registered).

(** [list.remove(x)] without its [ValueError]: the first occurrence goes. *)
Fixpoint remove_first (f : draw_func) (l : list draw_func) : list draw_func :=
  match l with
  | [] => []
  | g :: l' => if decide (g = f) then l' else g :: remove_first f l'
  end.

(** [bpy.types.TOPBAR_MT_file_import.append(f)] *)
Definition menu_append (f : draw_func) : M unit :=
  log (ev_menu_append f);;
  modify (λ w, set_import_menu (import_menu w ++ [f]) w).

(** [bpy.types.TOPBAR_MT_file_import.remove(f)]: Blender's [Menu.remove]
    swallows the [ValueError] of an absent callback. *)
Definition menu_remove (f : draw_func) : M unit :=
  log (ev_menu_remove f);;
  modify (λ w, set_import_menu (remove_first f (import_menu w)) w).

(** [import name] / [from name import ...] *)
Definition import_ (env : Env) (name : string) : M unit :=
  log (ev_import name);;
  r ← get (λ w, ext_import env w name);
  match r with
  | None => mret tt
  | Some e => raise e
  end.

(** [subprocess.check_call(argv)]: runs the process and waits for it; a
    non-zero exit status becomes [CalledProcessError]. *)
Definition check_call (env : Env) (argv : list string) : M Z :=
  log (ev_check_call argv);;
  r ← get (λ w, ext_run env w argv);
  match r with
  | inl e => raise e
  | inr retcode =>
      if decide (retcode = 0) then mret 0
      else raise (CalledProcessError retcode argv)
  end.

(** [importlib.invalidate_caches()] *)
Definition invalidate_caches : M unit := log ev_invalidate_caches.

(** [os.path.join(a, b)]; [a] may be [None], which [join] rejects. *)
Definition path_join (env : Env) (a : option string) (b : string) : M string :=
  match a with
  | Some a => mret (os_path_join env a b)
  | None => raise (TypeError "expected str, bytes or os.PathLike object, not NoneType")
  end.

(** [sys.path.append(p)] *)
Definition sys_path_append (p : string) : M unit :=
  modify (λ w, set_sys_path (sys_path w ++ [p]) w).

(** [bpy.context.preferences.addons[name].preferences] *)
Definition addon_preferences (name : string) : M ASEAddonPreferences :=
  a ← get addons;
  match a !! name with
  | Some p => mret p
  | None => raise (KeyError name)
  end.

(** ** [class ImportASEMolecule] *)

(** The items of the [representation] property. *)
Inductive representation_item :=
| rep_BallsnSticks
| rep_Licorice
| rep_VDW
| rep_bonds_fromnodes
| rep_nodes.

(** The identifier a read of the [EnumProperty] yields. *)
Definition representation_identifier (r : representation_item) : string :=
  match r with
  | rep_BallsnSticks => "Balls'n'Sticks"
  | rep_Licorice => "Licorice"
  | rep_VDW => "VDW"
  | rep_bonds_fromnodes => "bonds_fromnodes"
  | rep_nodes => "nodes"
  end.

(** [bpy.types.OperatorFileListElement]; [elem_name] is its [name]. *)
Record OperatorFileListElement := { elem_name : string }.

Record ImportASEMolecule := {
  scale : float;
  resolution : Z;
  colorbonds : bool;
  fix_bonds : bool;
  color : float;
  unit_cell : bool;
  representation : representation_item;
  read_density : bool;
  zero_cell : bool;
  animate : bool;
  imageslice : Z;
  overwrite : bool;
  outline : bool;
  add_supercell : bool;
  files : list OperatorFileListElement;
  directory : string
}.

Definition bl_idname : string := "import_mesh.ase".

(** The property defaults, before the file chooser fills [files] and
    [directory]. *)
Definition ImportASEMolecule_default : ImportASEMolecule :=
  {| scale := float_0_5; resolution := 16; colorbonds := false;
     fix_bonds := true; color := float_0_6; unit_cell := false;
     representation := rep_nodes; read_density := true; zero_cell := false;
     animate := true; imageslice := 1; overwrite := true; outline := true;
     add_supercell := true; files := []; directory := "" |}.

(** [ImportASEMolecule.draw] *)
Definition ImportASEMolecule_draw (self : ImportASEMolecule)
    (layout : list ui_item) : list ui_item :=
  layout ++ [ui_prop "resolution"; ui_prop "scale"; ui_prop "outline";
             ui_prop "add_supercell"; ui_prop "colorbonds"; ui_prop "fix_bonds";
             ui_prop "representation"; ui_prop "color"; ui_prop "unit_cell";
             ui_prop "read_density"; ui_prop "zero_cell"; ui_prop "animate";
             ui_prop "overwrite"; ui_prop "imageslice"].

(** The keyword arguments of the call in [execute], in source order. *)
Definition execute_kwargs (self : ImportASEMolecule) : list (string * pyval) :=
  [("resolution", PyInt (resolution self));
   ("color", PyFloat (color self));
   ("colorbonds", PyBool (colorbonds self));
   ("fix_bonds", PyBool (fix_bonds self));
   ("scale", PyFloat (scale self));
   ("unit_cell", PyBool (unit_cell self));
   ("representation", PyStr (representation_identifier (representation self)));
   ("read_density", PyBool (read_density self));
   ("shift_cell", PyBool (zero_cell self));
   ("imageslice", PyInt (imageslice self));
   ("animate", PyBool (animate self));
   ("outline", PyBool (outline self));
   ("overwrite", PyBool (overwrite self));
   ("add_supercell", PyBool (add_supercell self))].

(** A call of [import_ase_molecule] in the [ui] module, with positional and
    keyword arguments. *)
Definition import_ase_molecule (env : Env) (args : list pyval)
    (kwargs : list (string * pyval)) : M unit :=
  log (ev_import_ase_molecule args kwargs);;
  r ← get (λ w, ext_import_ase_molecule env w args kwargs);
  match r with
  | None => mret tt
  | Some e => raise e
  end.

(** The body of [for file in self.files]. *)
Definition execute_file (env : Env) (self : ImportASEMolecule)
    (file : OperatorFileListElement) : M unit :=
  let filepath := os_path_join env (directory self) (elem_name file) in
  import_ env ".ui";;
  import_ase_molecule env [PyStr filepath; PyStr (elem_name file)]
    (execute_kwargs self).

Fixpoint execute_loop (env : Env) (self : ImportASEMolecule)
    (fs : list OperatorFileListElement) : M unit :=
  match fs with
  | [] => mret tt
  | file :: rest => execute_file env self file;; execute_loop env self rest
  end.

(** [ImportASEMolecule.execute] *)
Definition execute (env : Env) (self : ImportASEMolecule) : M (gset string) :=
  execute_loop env self (files self);;
  mret {["FINISHED"]}.

(** [ImportASEMolecule.invoke] *)
Definition invoke (self : ImportASEMolecule) : M (gset string) :=
  log ev_fileselect_add;;
  mret {["RUNNING_MODAL"]}.

(** ** [class ASEAddonPreferences] *)

Definition msg_install_failed : string :=
  "ASE installation failed. Please check your internet connection.".

Definition msg_install_successful : string := "ASE installation successful.".

(** [ASEAddonPreferences.draw] *)
Definition ASEAddonPreferences_draw (self : ASEAddonPreferences)
    (layout : list ui_item) : list ui_item :=
  if install_failed self
  then layout ++ [ui_label msg_install_failed "ERROR"]
  else layout ++ [ui_label msg_install_successful "CHECKMARK"].

(** ** Module functions *)

Definition msg_attempting_install : string :=
  "ASE not present in Blender python. Attempting install. This could take a moment...".

Definition msg_installer_failed : string :=
  "Failed to install ASE. Please check your internet connection and try again or install manually".

Definition msg_not_found_after_install : string :=
  "ASE not found after installation, check your blender installation".

(** The command line handed to [subprocess.check_call]. *)
Definition pip_argv (python_path install_path : string) : list string :=
  [python_path; "-m"; "pip"; "install"; "--target"; install_path; "ase"].

(** The body of the inner [try] of [check_dependency]. *)
Definition install_ase (env : Env) : M unit :=
  let python_path := sys_executable env in
  let script_path := script_path_user env in
  install_path ← path_join env script_path "modules";
  check_call env (pip_argv python_path install_path);;
  sp ← get sys_path;
  (if decide (install_path ∈ sp) then mret tt else sys_path_append install_path);;
  invalidate_caches;;
  import_ env "ase".

(** The [except ImportError] suite of the outer [try]: [Some b] is a
    [return b] taken inside the inner [try] statement. *)
Definition install_and_recheck (env : Env) : M bool :=
  print msg_attempting_install;;
  r ← try_except (install_ase env;; mret None)
        (λ e, if is_CalledProcessError e
              then Some (print msg_installer_failed;; mret (Some false))
              else if is_ImportError e
              then Some (print msg_not_found_after_install;; mret (Some false))
              else None);
  match r with
  | Some b => mret b
  | None => print "Installed ASE";; mret true
  end.

Definition check_dependency (env : Env) : M bool :=
  try_except (import_ env "ase";; mret true)
    (λ e, if is_ImportError e then Some (install_and_recheck env) else None).

(** [menu_func_import]: the entry drawn in File > Import. *)
Definition menu_func_import (layout : list ui_item) : list ui_item :=
  layout ++ [ui_operator bl_idname "ASE Molecule (.*)"].

Definition register (env : Env) : M unit :=
  register_class cls_ASEAddonPreferences;;
  dependency ← check_dependency env;
  if dependency : bool
  then
    register_class cls_ImportASEMolecule;;
    menu_append fn_menu_func_import
  else
    prefs ← addon_preferences (module_name env);
    modify (λ w, set_addons (<[module_name env := {| install_failed := true |}]> (addons w)) w).

Definition msg_skipping : string :=
  "ImportASEMolecule was not registered, skipping.".

Definition unregister : M unit :=
  try_except (unregister_class cls_ImportASEMolecule)
    (λ e, if is_RuntimeError e
          then Some (print msg_skipping)
          else None);;
  menu_remove fn_menu_func_import;;
  unregister_class cls_ASEAddonPreferences.

(** ** Reading the trace *)

Definition is_check_call (e : event) : bool :=
  match e with ev_check_call _ => true | _ => false end.

Definition is_import_of (name : string) (e : event) : bool :=
  match e with ev_import m => String.eqb m name | _ => false end.

Definition is_invalidate_caches (e : event) : bool :=
  match e with ev_invalidate_caches => true | _ => false end.

Definition is_register_of (c : bpy_class) (e : event) : bool :=
  match e with ev_register_class c' => bool_decide (c' = c) | _ => false end.

Definition is_menu_append_of (f : draw_func) (e : event) : bool :=
  match e with ev_menu_append f' => bool_decide (f' = f) | _ => false end.

Definition is_import_ase_molecule (e : event) : bool :=
  match e with ev_import_ase_molecule _ _ => true | _ => false end.

(** How many events of a trace satisfy [p]. *)
Definition count_events (p : event → bool) (t : list event) : nat :=
  length (List.filter p t).

(** The calls of [import_ase_molecule] in a trace, oldest first. *)
Fixpoint invocations (t : list event)
  : list (list pyval * list (string * pyval)) :=
  match t with
  | [] => []
  | ev_import_ase_molecule args kwargs :: t' => (args, kwargs) :: invocations t'
  | _ :: t' => invocations t'
  end.

(** [kwargs[key]] *)
Fixpoint kwarg (key : string) (kwargs : list (string * pyval)) : option pyval :=
  match kwargs with
  | [] => None
  | (k, v) :: rest => if String.eqb k key then Some v else kwarg key rest
  end.

(** The events a computation adds to the trace of [w]. *)
Definition emitted {A} (m : M A) (w : World) : list event :=
  drop (length (trace w)) (trace (m w).2).

(** The world in which the installer is started, when the first
    [import ase] of a call from [w] has failed. *)
Definition installer_world (env : Env) (w : World) (install_path : string) : World :=
  emit (ev_check_call (pip_argv (sys_executable env) install_path))
    (emit (ev_print msg_attempting_install) (emit (ev_import "ase") w)).

(** The world of the second [import ase], after a successful installer run. *)
Definition reimport_world (env : Env) (w : World) (install_path : string) : World :=
  let w1 := installer_world env w install_path in
  emit (ev_import "ase")
    (emit ev_invalidate_caches
       (if decide (install_path ∈ sys_path w) then w1
        else set_sys_path (sys_path w ++ [install_path]) w1)).

(** ** Concrete environments and worlds *)

(** [posixpath.join] on two components. *)
Definition posix_join (a b : string) : string :=
  if String.prefix "/" b || String.eqb a "" then b
  else if String.eqb (String.substring (String.length a - 1) 1 a) "/" then a +:+ b
  else a +:+ "/" +:+ b.

Definition addon_name : string := "blender_importASE".

(** ASE is importable from the start; the installer is never needed. *)
Definition env_ase_present : Env :=
  {| module_name := addon_name;
     sys_executable := "/opt/blender/4.4/python/bin/python3.11";
     script_path_user := Some "/home/user/.config/blender/4.4/scripts";
     os_path_join := posix_join;
     ext_import := λ _ _, None;
     ext_run := λ _ _, inr 0;
     ext_import_ase_molecule := λ _ _ _, None |}.

(** ASE is missing and pip exits with status 1 (no network). *)
Definition env_offline : Env :=
  {| module_name := addon_name;
     sys_executable := "/opt/blender/4.4/python/bin/python3.11";
     script_path_user := Some "/home/user/.config/blender/4.4/scripts";
     os_path_join := posix_join;
     ext_import := λ _ name,
       if String.eqb name "ase" then Some (ModuleNotFoundError "No module named 'ase'")
       else None;
     ext_run := λ _ _, inr 1;
     ext_import_ase_molecule := λ _ _ _, None |}.

(** ASE is missing until pip has run and the target directory is on
    [sys.path]. *)
Definition env_installable : Env :=
  {| module_name := addon_name;
     sys_executable := "/opt/blender/4.4/python/bin/python3.11";
     script_path_user := Some "/home/user/.config/blender/4.4/scripts";
     os_path_join := posix_join;
     ext_import := λ w name,
       if String.eqb name "ase" &&
          negb (bool_decide ("/home/user/.config/blender/4.4/scripts/modules" ∈ sys_path w)
                && existsb is_invalidate_caches (trace w))
       then Some (ModuleNotFoundError "No module named 'ase'")
       else None;
     ext_run := λ _ _, inr 0;
     ext_import_ase_molecule := λ _ _ _, None |}.

(** pip exits with status 0, yet ASE stays unimportable. *)
Definition env_broken_install : Env :=
  {| module_name := addon_name;
     sys_executable := "/opt/blender/4.4/python/bin/python3.11";
     script_path_user := Some "/home/user/.config/blender/4.4/scripts";
     os_path_join := posix_join;
     ext_import := λ _ name,
       if String.eqb name "ase" then Some (ImportError "cannot import name 'ase'")
       else None;
     ext_run := λ _ _, inr 0;
     ext_import_ase_molecule := λ _ _ _, None |}.

(** The add-on has just been enabled: its entry is in [addons], none of its
    classes is registered yet. *)
Definition world_enabled : World :=
  {| classes := [cls_other "IMPORT_SCENE_OT_obj"];
     import_menu := [fn_other "menu_func_import_obj"];
     addons := {[ addon_name := ASEAddonPreferences_default ]};
     sys_path := ["/opt/blender/4.4/python/lib/python3.11"];
     trace := [] |}.

(** An operator after the file chooser returned two files. *)
Definition op_two_files : ImportASEMolecule :=
  {| scale := float_0_5; resolution := 16; colorbonds := false;
     fix_bonds := true; color := float_0_6; unit_cell := false;
     representation := rep_Licorice; read_density := true; zero_cell := true;
     animate := true; imageslice := 2; overwrite := true; outline := true;
     add_supercell := true;
     files := [{| elem_name := "h2o.xyz" |}; {| elem_name := "md.traj" |}];
     directory := "/data/run1/" |}.

(** The command lines of the [check_call] events of a trace, oldest first. *)
Fixpoint check_calls (t : list event) : list (list string) :=
  match t with
  | [] => []
  | ev_check_call argv :: t' => argv :: check_calls t'
  | _ :: t' => check_calls t'
  end.

(** The names of the properties a layout shows, in order. *)
Fixpoint prop_names (l : list ui_item) : list string :=
  match l with
  | [] => []
  | ui_prop name :: l' => name :: prop_names l'
  | _ :: l' => prop_names l'
  end.

(** The keyword under which [execute] passes the property [name]. *)
Definition keyword_of_property (name : string) : string :=
  if String.eqb name "zero_cell" then "shift_cell" else name.

(** The events of one pass of the loop of [execute] that is not interrupted. *)
Definition execute_file_events (env : Env) (self : ImportASEMolecule)
    (file : OperatorFileListElement) : list event :=
  [ev_import ".ui";
   ev_import_ase_molecule
     [PyStr (os_path_join env (directory self) (elem_name file));
      PyStr (elem_name file)]
     (execute_kwargs self)].

(** The registry as [register] and [unregister] keep it: no class twice, and
    the operator only beside the preferences class. *)
Definition registry_ok (w : World) : Prop :=
  NoDup (classes w)
  ∧ (cls_ImportASEMolecule ∈ classes w → cls_ASEAddonPreferences ∈ classes w).

(** ASE is missing and Blender has no user script directory. *)
Definition env_no_script_path : Env :=
  {| module_name := addon_name;
     sys_executable := "/opt/blender/4.4/python/bin/python3.11";
     script_path_user := None;
     os_path_join := posix_join;
     ext_import := λ _ name,
       if String.eqb name "ase" then Some (ModuleNotFoundError "No module named 'ase'")
       else None;
     ext_run := λ _ _, inr 0;
     ext_import_ase_molecule := λ _ _ _, None |}.

(** ASE is missing and the interpreter cannot be started. *)
Definition env_no_python : Env :=
  {| module_name := addon_name;
     sys_executable := "";
     script_path_user := Some "/home/user/.config/blender/4.4/scripts";
     os_path_join := posix_join;
     ext_import := λ _ name,
       if String.eqb name "ase" then Some (ModuleNotFoundError "No module named 'ase'")
       else None;
     ext_run := λ _ _, inl (OSError "[Errno 2] No such file or directory: ''");
     ext_import_ase_molecule := λ _ _ _, None |}.

(** The file run as a script: [__name__] is ["__main__"], ASE is missing and
    pip exits with status 1. *)
Definition env_script : Env :=
  {| module_name := "__main__";
     sys_executable := "/opt/blender/4.4/python/bin/python3.11";
     script_path_user := Some "/home/user/.config/blender/4.4/scripts";
     os_path_join := posix_join;
     ext_import := λ _ name,
       if String.eqb name "ase" then Some (ModuleNotFoundError "No module named 'ase'")
       else None;
     ext_run := λ _ _, inr 1;
     ext_import_ase_molecule := λ _ _ _, None |}.

(** The second file cannot be read by the importer. *)
Definition env_second_file_fails : Env :=
  {| module_name := addon_name;
     sys_executable := "/opt/blender/4.4/python/bin/python3.11";
     script_path_user := Some "/home/user/.config/blender/4.4/scripts";
     os_path_join := posix_join;
     ext_import := λ _ _, None;
     ext_run := λ _ _, inr 0;
     ext_import_ase_molecule := λ _ args _,
       match args with
       | [_; PyStr "md.traj"] => Some (OtherException "ase.io.formats.UnknownFileTypeError")
       | _ => None
       end |}.

(** The add-on enabled after an earlier session in which the installation
    failed and the preferences were saved. *)
Definition world_failed_before : World :=
  {| classes := [cls_other "IMPORT_SCENE_OT_obj"];
     import_menu := [fn_other "menu_func_import_obj"];
     addons := {[ addon_name := {| install_failed := true |} ]};
     sys_path := ["/opt/blender/4.4/python/lib/python3.11"];
     trace := [] |}.


(** * Properties *)

(** ** Running the monad *)

Create HintDb run discriminated.

#[global] Hint Unfold print register_class unregister_class menu_append
  menu_remove import_ check_call invalidate_caches path_join sys_path_append
  addon_preferences import_ase_molecule log get modify raise try_except : run.

Ltac unfold_M :=
  repeat (autounfold with run in *;
          unfold mbind, M_bind, mret, M_ret in *; cbn beta iota in * ).

(** Splits on the next scrutinee of the goal: an external outcome, a
    membership test. *)
Ltac run_step :=
  match goal with
  | |- context [match ?x with _ => _ end] =>
      lazymatch x with
      | context [match _ with _ => _ end] => fail
      | _ => destruct x eqn:?
      end
  end.

Ltac run := unfold_M; simpl; repeat (run_step; simpl in * ); simplify_eq/=.

(** ** The primitives, as equations *)

Lemma register_class_fresh c w :
  c ∉ classes w →
  register_class c w
  = (Return tt, set_classes (classes w ++ [c]) (emit (ev_register_class c) w)).
Proof. intros Hc. run; done. Qed.

Lemma register_class_present c w :
  c ∈ classes w →
  ∃ msg, register_class c w = (Raise (ValueError msg), emit (ev_register_class c) w).
Proof. intros Hc. run; by eauto. Qed.

Lemma register_class_Return c w w1 :
  register_class c w = (Return tt, w1) →
  (c ∉ classes w) ∧ w1 = set_classes (classes w ++ [c]) (emit (ev_register_class c) w).
Proof. revert w1. run; intros; simplify_eq; done. Qed.

Lemma unregister_class_present c w :
  c ∈ classes w →
  unregister_class c w
  = (Return tt,
     set_classes (filter (λ x, x ≠ c) (classes w)) (emit (ev_unregister_class c) w)).
Proof. intros Hc. run; done. Qed.

Lemma unregister_class_absent c w :
  c ∉ classes w →
  ∃ msg, unregister_class c w
         = (Raise (RuntimeError msg), emit (ev_unregister_class c) w).
Proof. intros Hc. run; by eauto. Qed.

(** ** [check_dependency], path by path *)

Lemma install_ase_eq env w0 :
    install_ase env w0 =
    match script_path_user env with
    | None =>
        (Raise (TypeError "expected str, bytes or os.PathLike object, not NoneType"), w0)
    | Some sp =>
        let p := os_path_join env sp "modules" in
        let argv := pip_argv (sys_executable env) p in
        let w1 := emit (ev_check_call argv) w0 in
        match ext_run env w1 argv with
        | inl e => (Raise e, w1)
        | inr rc =>
            if decide (rc = 0) then
              let w2 := if decide (p ∈ sys_path w0) then w1
                        else set_sys_path (sys_path w0 ++ [p]) w1 in
              let w3 := emit (ev_import "ase") (emit ev_invalidate_caches w2) in
              match ext_import env w3 "ase" with
              | None => (Return tt, w3)
              | Some e => (Raise e, w3)
              end
            else (Raise (CalledProcessError rc argv), w1)
        end
    end.
Proof. unfold install_ase. run; done. Qed.

Lemma check_dependency_eq env w :
  check_dependency env w =
  let w1 := emit (ev_import "ase") w in
  match ext_import env w1 "ase" with
  | None => (Return true, w1)
  | Some e =>
      if is_ImportError e then
        match install_ase env (emit (ev_print msg_attempting_install) w1) with
        | (Return _, w2) => (Return true, emit (ev_print "Installed ASE") w2)
        | (Raise e', w2) =>
            if is_CalledProcessError e'
            then (Return false, emit (ev_print msg_installer_failed) w2)
            else if is_ImportError e'
            then (Return false, emit (ev_print msg_not_found_after_install) w2)
            else (Raise e', w2)
        end
      else (Raise e, w1)
  end.
Proof. unfold check_dependency, install_and_recheck. run; done. Qed.

(** What [install_ase] leaves alone: the registry, the menu and the
    preferences. *)
Lemma install_ase_frame env w :
  let w' := (install_ase env w).2 in
  classes w' = classes w ∧ import_menu w' = import_menu w ∧ addons w' = addons w.
Proof. rewrite install_ase_eq. run; done. Qed.

Lemma check_dependency_frame env w :
  let w' := (check_dependency env w).2 in
  classes w' = classes w ∧ import_menu w' = import_menu w ∧ addons w' = addons w.
Proof.
  rewrite check_dependency_eq. cbv zeta.
  destruct (ext_import env _ _) as [e|]; [|done].
  destruct (is_ImportError e); [|done].
  pose proof (install_ase_frame env
    (emit (ev_print msg_attempting_install) (emit (ev_import "ase") w))) as Hf.
  destruct (install_ase env _) as [[[]|e'] w2]; simpl in *; [done|].
  destruct (is_CalledProcessError e'), (is_ImportError e'); done.
Qed.

(** ** Counting events *)

Lemma count_events_app p t1 t2 :
  count_events p (t1 ++ t2) = (count_events p t1 + count_events p t2)%nat.
Proof. unfold count_events. by rewrite List.filter_app, length_app. Qed.

Lemma invocations_app t1 t2 :
  invocations (t1 ++ t2) = invocations t1 ++ invocations t2.
Proof.
  induction t1 as [|e t1 IH]; [done|].
  destruct e; simpl; by rewrite ?IH.
Qed.

Ltac count := simpl; rewrite ?count_events_app, ?invocations_app; simpl;
  try (unfold count_events; simpl); try lia.

(** The installer runs at most once in [install_ase], and [install_ase] makes
    no registration call. *)
Lemma install_ase_counts env w :
  let t' := trace (install_ase env w).2 in
  (count_events is_check_call t' ≤ count_events is_check_call (trace w) + 1)%nat
  ∧ (∀ c, count_events (is_register_of c) t' = count_events (is_register_of c) (trace w))
  ∧ (∀ f, count_events (is_menu_append_of f) t'
          = count_events (is_menu_append_of f) (trace w)).
Proof. rewrite install_ase_eq. run; repeat split; intros; count. Qed.

Lemma check_dependency_counts env w :
  let t' := trace (check_dependency env w).2 in
  (count_events is_check_call t' ≤ count_events is_check_call (trace w) + 1)%nat
  ∧ (∀ c, count_events (is_register_of c) t' = count_events (is_register_of c) (trace w))
  ∧ (∀ f, count_events (is_menu_append_of f) t'
          = count_events (is_menu_append_of f) (trace w)).
Proof.
  rewrite check_dependency_eq. cbv zeta.
  destruct (ext_import env _ _) as [e|]; [|repeat split; intros; count].
  destruct (is_ImportError e); [|repeat split; intros; count].
  pose proof (install_ase_counts env
    (emit (ev_print msg_attempting_install) (emit (ev_import "ase") w))) as Hc.
  destruct (install_ase env _) as [[[]|e'] w2]; simpl in Hc;
    [|destruct (is_CalledProcessError e'), (is_ImportError e')];
    destruct Hc as (H1 & H2 & H3); simpl;
    (split; [|split; intros]); rewrite ?count_events_app, ?H2, ?H3;
    revert H1; count.
Qed.

(** ** The dependency check *)

(** [import ase] is attempted once before the installer and at most once
    after it. *)
Lemma install_ase_import_attempts env w :
  (count_events (is_import_of "ase") (trace (install_ase env w).2)
   ≤ count_events (is_import_of "ase") (trace w) + 1)%nat.
Proof. rewrite install_ase_eq. run; count. Qed.

Lemma check_dependency_import_attempts env w :
  (count_events (is_import_of "ase") (trace (check_dependency env w).2)
   ≤ count_events (is_import_of "ase") (trace w) + 2)%nat.
Proof.
  rewrite check_dependency_eq. cbv zeta.
  destruct (ext_import env _ _) as [e|]; [|count].
  destruct (is_ImportError e); [|count].
  pose proof (install_ase_import_attempts env
    (emit (ev_print msg_attempting_install) (emit (ev_import "ase") w))) as Hc.
  destruct (install_ase env _) as [[[]|e'] w2]; simpl in Hc;
    [|destruct (is_CalledProcessError e'), (is_ImportError e')];
    simpl; rewrite ?count_events_app; revert Hc; count.
Qed.

Lemma check_dependency_nonzero_exit env w e0 sp rc :
  ext_import env (emit (ev_import "ase") w) "ase" = Some e0 →
  is_ImportError e0 = true →
  script_path_user env = Some sp →
  let p := os_path_join env sp "modules" in
  let w1 := installer_world env w p in
  ext_run env w1 (pip_argv (sys_executable env) p) = inr rc → rc ≠ 0 →
  check_dependency env w = (Return false, emit (ev_print msg_installer_failed) w1).
Proof.
  intros H0 He0 Hsp p w1 Hrun Hrc.
  rewrite check_dependency_eq; cbv zeta. rewrite H0, He0, install_ase_eq, Hsp.
  cbv zeta. fold p. unfold w1, installer_world in Hrun. rewrite Hrun.
  by destruct (decide (rc = 0)).
Qed.

Lemma check_dependency_reimport_fails env w e0 sp e :
  ext_import env (emit (ev_import "ase") w) "ase" = Some e0 →
  is_ImportError e0 = true →
  script_path_user env = Some sp →
  let p := os_path_join env sp "modules" in
  ext_run env (installer_world env w p) (pip_argv (sys_executable env) p) = inr 0 →
  ext_import env (reimport_world env w p) "ase" = Some e →
  is_ImportError e = true →
  check_dependency env w
  = (Return false, emit (ev_print msg_not_found_after_install) (reimport_world env w p)).
Proof.
  intros H0 He0 Hsp p Hrun Himp He.
  rewrite check_dependency_eq; cbv zeta. rewrite H0, He0, install_ase_eq, Hsp.
  cbv zeta. fold p. unfold reimport_world, installer_world in *.
  rewrite Hrun. simpl in *. rewrite Himp, He.
  by destruct e.
Qed.

(** C4.  [check_dependency] turns two kinds of failure into [False]: a
    non-zero exit status of the installer ([CalledProcessError]) and an
    [ImportError] of the second import.  Each is caught, a message is printed
    last, and [False] is returned.  [False] is returned in no other way, and
    an exception of any other class leaves the function. *)
Theorem check_dependency_failure_kinds (env : Env) (w : World) :
  (∀ e0 sp rc,
     ext_import env (emit (ev_import "ase") w) "ase" = Some e0 →
     is_ImportError e0 = true →
     script_path_user env = Some sp →
     let p := os_path_join env sp "modules" in
     let w1 := installer_world env w p in
     ext_run env w1 (pip_argv (sys_executable env) p) = inr rc → rc ≠ 0 →
     check_dependency env w = (Return false, emit (ev_print msg_installer_failed) w1))
  ∧ (∀ e0 sp e,
     ext_import env (emit (ev_import "ase") w) "ase" = Some e0 →
     is_ImportError e0 = true →
     script_path_user env = Some sp →
     let p := os_path_join env sp "modules" in
     ext_run env (installer_world env w p) (pip_argv (sys_executable env) p) = inr 0 →
     ext_import env (reimport_world env w p) "ase" = Some e →
     is_ImportError e = true →
     check_dependency env w
     = (Return false, emit (ev_print msg_not_found_after_install) (reimport_world env w p)))
  ∧ (∀ w', check_dependency env w = (Return false, w') →
     ∃ e0 e w2,
       ext_import env (emit (ev_import "ase") w) "ase" = Some e0
       ∧ is_ImportError e0 = true
       ∧ install_ase env (emit (ev_print msg_attempting_install) (emit (ev_import "ase") w))
         = (Raise e, w2)
       ∧ (is_CalledProcessError e = true ∧ w' = emit (ev_print msg_installer_failed) w2
          ∨ is_CalledProcessError e = false ∧ is_ImportError e = true
            ∧ w' = emit (ev_print msg_not_found_after_install) w2))
  ∧ (∀ e0,
     ext_import env (emit (ev_import "ase") w) "ase" = Some e0 →
     is_ImportError e0 = false →
     check_dependency env w = (Raise e0, emit (ev_import "ase") w))
  ∧ (∀ e0 e w2,
     ext_import env (emit (ev_import "ase") w) "ase" = Some e0 →
     is_ImportError e0 = true →
     install_ase env (emit (ev_print msg_attempting_install) (emit (ev_import "ase") w))
     = (Raise e, w2) →
     is_CalledProcessError e = false → is_ImportError e = false →
     check_dependency env w = (Raise e, w2)).
Proof.
  repeat split.
  - intros; by eapply check_dependency_nonzero_exit.
  - intros; by eapply check_dependency_reimport_fails.
  - intros w'. rewrite check_dependency_eq; cbv zeta.
    destruct (ext_import env _ _) as [e0|]; [|done].
    destruct (is_ImportError e0) eqn:He0; [|done].
    destruct (install_ase env _) as [[[]|e] w2]; [done|].
    destruct (is_CalledProcessError e) eqn:Hc; [|destruct (is_ImportError e) eqn:Hi];
      intros; simplify_eq; eauto 10.
  - intros e0 H0 He0. rewrite check_dependency_eq; cbv zeta. by rewrite H0, He0.
  - intros e0 e w2 H0 He0 Hi Hc He.
    rewrite check_dependency_eq; cbv zeta. by rewrite H0, He0, Hi, Hc, He.
Qed.

Lemma check_dependency_failure_kinds_witness :
  check_dependency env_offline world_enabled
  = (Return false,
     emit (ev_print msg_installer_failed)
       (installer_world env_offline world_enabled
          "/home/user/.config/blender/4.4/scripts/modules"))
  ∧ check_dependency env_broken_install world_enabled
  = (Return false,
     emit (ev_print msg_not_found_after_install)
       (reimport_world env_broken_install world_enabled
          "/home/user/.config/blender/4.4/scripts/modules")).
Proof.
  split.
  - refine (proj1 (check_dependency_failure_kinds env_offline world_enabled)
              (ModuleNotFoundError "No module named 'ase'")
              "/home/user/.config/blender/4.4/scripts" 1 _ _ _ _ _);
      [reflexivity | reflexivity | reflexivity | reflexivity | lia].
  - refine (proj1 (proj2 (check_dependency_failure_kinds env_broken_install world_enabled))
              (ImportError "cannot import name 'ase'")
              "/home/user/.config/blender/4.4/scripts"
              (ImportError "cannot import name 'ase'") _ _ _ _ _ _);
      reflexivity.
Defined.

(** C8.  No retry: one call of [check_dependency] starts the installer at
    most once and attempts [import ase] at most twice.  Whenever the result is
    [False] the installer was started exactly once; after a non-zero exit
    status nothing follows but the message, no second import is attempted,
    and the registry, the menu, the preferences and [sys.path] are as
    before. *)
Theorem check_dependency_no_retry (env : Env) (w : World) :
  let r := check_dependency env w in
  (count_events is_check_call (trace r.2)
   ≤ count_events is_check_call (trace w) + 1)%nat
  ∧ (r.1 = Return false →
     count_events is_check_call (trace r.2)
     = (count_events is_check_call (trace w) + 1)%nat)
  ∧ (∀ e0 sp rc,
     ext_import env (emit (ev_import "ase") w) "ase" = Some e0 →
     is_ImportError e0 = true →
     script_path_user env = Some sp →
     let argv := pip_argv (sys_executable env) (os_path_join env sp "modules") in
     ext_run env (installer_world env w (os_path_join env sp "modules")) argv = inr rc →
     rc ≠ 0 →
     r.1 = Return false
     ∧ trace r.2 = trace w ++ [ev_import "ase"; ev_print msg_attempting_install;
                               ev_check_call argv; ev_print msg_installer_failed]
     ∧ host_state r.2 = host_state w)
  ∧ (count_events (is_import_of "ase") (trace r.2)
     ≤ count_events (is_import_of "ase") (trace w) + 2)%nat.
Proof.
  cbv zeta. split; [apply check_dependency_counts|].
  split; [|split; [|apply check_dependency_import_attempts]].
  - rewrite check_dependency_eq; cbv zeta.
    destruct (ext_import env _ _) as [e0|]; [|done].
    destruct (is_ImportError e0); [|done].
    rewrite install_ase_eq. run; intros; simplify_eq; count.
  - intros e0 sp rc H0 He0 Hsp Hrun Hrc.
    rewrite (check_dependency_nonzero_exit env w e0 sp rc H0 He0 Hsp Hrun Hrc). simpl.
    by rewrite <- !app_assoc.
Qed.

Lemma check_dependency_no_retry_witness :
  (check_dependency env_offline world_enabled).1 = Return false
  ∧ trace (check_dependency env_offline world_enabled).2
    = [ev_import "ase"; ev_print msg_attempting_install;
       ev_check_call
         (pip_argv "/opt/blender/4.4/python/bin/python3.11"
            "/home/user/.config/blender/4.4/scripts/modules");
       ev_print msg_installer_failed]
  ∧ host_state (check_dependency env_offline world_enabled).2
    = host_state world_enabled.
Proof.
  refine (proj1 (proj2 (proj2 (check_dependency_no_retry env_offline world_enabled)))
            (ModuleNotFoundError "No module named 'ase'")
            "/home/user/.config/blender/4.4/scripts" 1 _ _ _ _ _);
    [reflexivity | reflexivity | reflexivity | reflexivity | lia].
Defined.

(** C7.  When the installer has exited with status 0, the install directory
    is on [sys.path] afterwards: appended at the end if it was absent, and
    [sys.path] untouched if it was present.  In every run [sys.path] is either
    unchanged or extended by that one absent directory after a successful
    installer run, so a duplicate-free [sys.path] stays duplicate-free. *)
Theorem check_dependency_sys_path (env : Env) (w : World) :
  let w' := (check_dependency env w).2 in
  (∀ e0 sp,
     ext_import env (emit (ev_import "ase") w) "ase" = Some e0 →
     is_ImportError e0 = true →
     script_path_user env = Some sp →
     let p := os_path_join env sp "modules" in
     ext_run env (installer_world env w p) (pip_argv (sys_executable env) p) = inr 0 →
     sys_path w' = (if decide (p ∈ sys_path w) then sys_path w else sys_path w ++ [p])
     ∧ p ∈ sys_path w')
  ∧ (sys_path w' = sys_path w
     ∨ ∃ sp, script_path_user env = Some sp
        ∧ (let p := os_path_join env sp "modules" in
           ext_run env (installer_world env w p) (pip_argv (sys_executable env) p) = inr 0
           ∧ (p ∉ sys_path w) ∧ sys_path w' = sys_path w ++ [p]))
  ∧ (NoDup (sys_path w) → NoDup (sys_path w')).
Proof.
  cbv zeta.
  assert (Hcases :
    sys_path (check_dependency env w).2 = sys_path w
    ∨ ∃ sp, script_path_user env = Some sp
        ∧ (let p := os_path_join env sp "modules" in
           ext_run env (installer_world env w p) (pip_argv (sys_executable env) p) = inr 0
           ∧ (p ∉ sys_path w)
           ∧ sys_path (check_dependency env w).2 = sys_path w ++ [p])).
  { rewrite check_dependency_eq; cbv zeta. unfold installer_world.
    destruct (ext_import env _ _) as [e0|]; [|by left].
    destruct (is_ImportError e0); [|by left].
    rewrite install_ase_eq.
    destruct (script_path_user env) as [sp|]; [|by left]. cbv zeta.
    destruct (ext_run env _ _) as [e|rc] eqn:Hrun;
      [destruct (is_CalledProcessError e), (is_ImportError e); by left|].
    destruct (decide (rc = 0)) as [->|]; [|by left].
    destruct (decide (_ ∈ sys_path _)) as [Hin|Hin]; simpl in *.
    - destruct (ext_import env _ _) as [e|];
        [destruct (is_CalledProcessError e), (is_ImportError e)|]; by left.
    - right. exists sp. split; [done|]. cbv zeta. split; [done|]. split; [done|].
      destruct (ext_import env _ _) as [e|];
        [destruct (is_CalledProcessError e), (is_ImportError e)|]; done. }
  split; [|split; [exact Hcases|]].
  - intros e0 sp H0 He0 Hsp Hrun.
    rewrite check_dependency_eq; cbv zeta. rewrite H0, He0, install_ase_eq, Hsp.
    cbv zeta. unfold installer_world in Hrun. rewrite Hrun. simpl.
    clear Hcases.
    repeat (run_step; simpl in * ); (split; [done|]); try done;
      apply list_elem_of_In, in_app_iff; right; by left.
  - intros Hnd. destruct Hcases as [->|(sp & _ & _ & Hin & ->)]; [done|].
    apply NoDup_app. split; [done|]. split; [|apply NoDup_singleton].
    intros x Hx ->%list_elem_of_singleton. done.
Qed.

Lemma check_dependency_sys_path_witness :
  sys_path (check_dependency env_installable world_enabled).2
  = ["/opt/blender/4.4/python/lib/python3.11";
     "/home/user/.config/blender/4.4/scripts/modules"]
  ∧ "/home/user/.config/blender/4.4/scripts/modules"
    ∈ sys_path (check_dependency env_installable world_enabled).2.
Proof.
  refine (proj1 (check_dependency_sys_path env_installable world_enabled)
            (ModuleNotFoundError "No module named 'ase'")
            "/home/user/.config/blender/4.4/scripts" _ _ _ _);
    reflexivity.
Defined.

(** ** Registry lists *)

Lemma filter_eq_absent (c : bpy_class) (l : list bpy_class) :
  c ∉ l → filter (λ x, x = c) l = [].
Proof.
  induction l as [|d l IH]; [done|].
  intros [Hd Hl]%not_elem_of_cons.
  rewrite filter_cons_False by congruence. auto.
Qed.

Lemma filter_ne_absent (c : bpy_class) (l : list bpy_class) :
  c ∉ l → filter (λ x, x ≠ c) l = l.
Proof.
  induction l as [|d l IH]; [done|].
  intros [Hd Hl]%not_elem_of_cons.
  rewrite filter_cons_True by congruence. f_equal. auto.
Qed.

Lemma filter_ne_not_elem (c : bpy_class) (l : list bpy_class) :
  c ∉ filter (λ x, x ≠ c) l.
Proof. intros [Hc _]%list_elem_of_filter. done. Qed.

Lemma remove_first_absent (f : draw_func) (l : list draw_func) :
  f ∉ l → remove_first f l = l.
Proof.
  induction l as [|g l IH]; [done|].
  intros [Hg Hl]%not_elem_of_cons. simpl.
  destruct (decide (g = f)); [congruence|]. f_equal. auto.
Qed.

(** ** [register] *)

Lemma install_ase_trace_extends env w :
  ∃ new, trace (install_ase env w).2 = trace w ++ new.
Proof.
  rewrite install_ase_eq. run; rewrite <- ?app_assoc; eauto using app_nil_r.
Qed.

Lemma check_dependency_trace_extends env w :
  ∃ new, trace (check_dependency env w).2 = trace w ++ new.
Proof.
  rewrite check_dependency_eq; cbv zeta.
  destruct (ext_import env _ _) as [e|]; [|simpl; eauto].
  destruct (is_ImportError e); [|simpl; eauto].
  destruct (install_ase_trace_extends env
    (emit (ev_print msg_attempting_install) (emit (ev_import "ase") w))) as [new Hnew].
  destruct (install_ase env _) as [[[]|e'] w2]; simpl in *;
    [|destruct (is_CalledProcessError e'), (is_ImportError e')]; simpl;
    rewrite Hnew, <- ?app_assoc; eauto.
Qed.

(** [register] after the preferences class went in and the dependency check
    came back. *)
Lemma register_after_check env w w1 w2 (dependency : bool) :
  register_class cls_ASEAddonPreferences w = (Return tt, w1) →
  check_dependency env w1 = (Return dependency, w2) →
  register env w =
  if dependency
  then (register_class cls_ImportASEMolecule;; menu_append fn_menu_func_import) w2
  else
    match addons w2 !! module_name env with
    | Some _ =>
        (Return tt,
         set_addons (<[module_name env := {| install_failed := true |}]> (addons w2)) w2)
    | None => (Raise (KeyError (module_name env)), w2)
    end.
Proof.
  intros Hreg Hdep. unfold register, mbind, M_bind at 1 2. rewrite Hreg, Hdep.
  destruct dependency; [done|]. run; done.
Qed.

(** C1, as the code has it.  When the preferences class has been registered
    and [check_dependency] returns [False], [register] makes no registration
    call for the operator and no menu append: the registry gains the
    preferences class only and the import menu is as before.  With an entry
    under [__name__] in the preferences, [register] returns and the entry's
    [install_failed] is [True], so [draw] shows the failure label; without
    such an entry [register] is left by the [KeyError] of the lookup and no
    flag is written.  For an [install_failed] of [False], [draw] shows the
    success label. *)
Theorem register_dependency_unavailable (env : Env) (w w1 w2 : World) :
  register_class cls_ASEAddonPreferences w = (Return tt, w1) →
  check_dependency env w1 = (Return false, w2) →
  let w' := (register env w).2 in
  classes w' = classes w ++ [cls_ASEAddonPreferences]
  ∧ (cls_ImportASEMolecule ∉ classes w → cls_ImportASEMolecule ∉ classes w')
  ∧ import_menu w' = import_menu w
  ∧ count_events (is_register_of cls_ImportASEMolecule) (trace w')
    = count_events (is_register_of cls_ImportASEMolecule) (trace w)
  ∧ count_events (is_menu_append_of fn_menu_func_import) (trace w')
    = count_events (is_menu_append_of fn_menu_func_import) (trace w)
  ∧ (is_Some (addons w !! module_name env) →
     (register env w).1 = Return tt
     ∧ addons w' = <[module_name env := {| install_failed := true |}]> (addons w)
     ∧ ∃ prefs, addons w' !! module_name env = Some prefs
         ∧ install_failed prefs = true
         ∧ ∀ layout, ASEAddonPreferences_draw prefs layout
                     = layout ++ [ui_label msg_install_failed "ERROR"])
  ∧ (addons w !! module_name env = None →
     (register env w).1 = Raise (KeyError (module_name env))
     ∧ addons w' = addons w)
  ∧ (∀ prefs layout, install_failed prefs = false →
       ASEAddonPreferences_draw prefs layout
       = layout ++ [ui_label msg_install_successful "CHECKMARK"]).
Proof.
  intros Hreg Hdep w'.
  assert (Hw' : w' = (register env w).2) by done. clearbody w'.
  rewrite (register_after_check env w w1 w2 false Hreg Hdep) in *.
  apply register_class_Return in Hreg as [Hfresh ->].
  pose proof (check_dependency_frame env
    (set_classes (classes w ++ [cls_ASEAddonPreferences])
       (emit (ev_register_class cls_ASEAddonPreferences) w))) as (Hc & Hm & Ha).
  pose proof (check_dependency_counts env
    (set_classes (classes w ++ [cls_ASEAddonPreferences])
       (emit (ev_register_class cls_ASEAddonPreferences) w))) as (_ & Hr & Hp).
  rewrite Hdep in Hc, Hm, Ha, Hr, Hp. simpl in *.
  assert (classes w' = classes w ++ [cls_ASEAddonPreferences]
          ∧ import_menu w' = import_menu w ∧ trace w' = trace w2) as (Hc' & Hm' & Ht').
  { subst w'. destruct (addons w2 !! module_name env); simpl; by rewrite Hc, Hm. }
  split; [done|]. split.
  { rewrite Hc'. intros Hop [?|Hin%list_elem_of_singleton]%elem_of_app; done. }
  split; [done|].
  rewrite Ht', Hr, Hp, !count_events_app. simpl.
  split; [unfold count_events; simpl; lia|].
  split; [unfold count_events; simpl; lia|].
  split; [|split].
  - intros [p Hp']. rewrite <- Ha in Hp'. subst w'. rewrite Hp'. simpl.
    split; [done|]. rewrite Ha. split; [done|].
    exists {| install_failed := true |}. by rewrite lookup_insert_eq.
  - intros Hnone. rewrite <- Ha in Hnone. subst w'. rewrite Hnone. simpl.
    by rewrite Ha.
  - intros prefs layout Hf. unfold ASEAddonPreferences_draw. by rewrite Hf.
Qed.

Lemma register_dependency_unavailable_witness :
  classes (register env_offline world_enabled).2
  = [cls_other "IMPORT_SCENE_OT_obj"; cls_ASEAddonPreferences]
  ∧ (register env_offline world_enabled).1 = Return tt
  ∧ ∃ prefs, addons (register env_offline world_enabled).2 !! addon_name = Some prefs
      ∧ ASEAddonPreferences_draw prefs [] = [ui_label msg_install_failed "ERROR"].
Proof.
  destruct (register_dependency_unavailable env_offline world_enabled
              (register_class cls_ASEAddonPreferences world_enabled).2
              (check_dependency env_offline
                 (register_class cls_ASEAddonPreferences world_enabled).2).2
              eq_refl eq_refl)
    as (Hc & _ & _ & _ & _ & Hprefs & _).
  split; [exact Hc|].
  destruct Hprefs as (Hret & _ & prefs & Hlook & _ & Hdraw).
  - exists ASEAddonPreferences_default. reflexivity.
  - split; [exact Hret|]. exists prefs. split; [exact Hlook|]. apply (Hdraw []).
Defined.

(** C1, as stated, fails: the file run as a script, with ASE missing and the
    installer failing.  [check_dependency] returns [False], the preferences
    hold no entry under ["__main__"], and [register] is left by a [KeyError]
    with no [install_failed] flag set. *)
Lemma register_unavailable_without_entry :
  let w1 := (register_class cls_ASEAddonPreferences world_enabled).2 in
  let w' := (register env_script world_enabled).2 in
  (register_class cls_ASEAddonPreferences world_enabled).1 = Return tt
  ∧ (check_dependency env_script w1).1 = Return false
  ∧ (register env_script world_enabled).1 = Raise (KeyError "__main__")
  ∧ addons w' !! "__main__" = None
  ∧ addons w' !! addon_name = Some {| install_failed := false |}.
Proof. cbv zeta. repeat split; reflexivity. Qed.

(** C3.  When the preferences class has been registered, [check_dependency]
    returns [True] and the operator is not registered yet, [register] returns
    after one [register_class(ImportASEMolecule)] and one
    [append(menu_func_import)], made last and in this order: the operator is
    in the registry exactly once and the menu has one more entry, at its end,
    which draws the operator's button. *)
Theorem register_dependency_available (env : Env) (w w1 w2 : World) :
  cls_ImportASEMolecule ∉ classes w →
  register_class cls_ASEAddonPreferences w = (Return tt, w1) →
  check_dependency env w1 = (Return true, w2) →
  ∃ w', register env w = (Return tt, w')
    ∧ classes w' = classes w ++ [cls_ASEAddonPreferences; cls_ImportASEMolecule]
    ∧ length (filter (λ c, c = cls_ImportASEMolecule) (classes w')) = 1%nat
    ∧ import_menu w' = import_menu w ++ [fn_menu_func_import]
    ∧ trace w' = trace w2 ++ [ev_register_class cls_ImportASEMolecule;
                              ev_menu_append fn_menu_func_import]
    ∧ count_events (is_register_of cls_ImportASEMolecule) (trace w')
      = (count_events (is_register_of cls_ImportASEMolecule) (trace w) + 1)%nat
    ∧ count_events (is_menu_append_of fn_menu_func_import) (trace w')
      = (count_events (is_menu_append_of fn_menu_func_import) (trace w) + 1)%nat
    ∧ menu_func_import [] = [ui_operator bl_idname "ASE Molecule (.*)"].
Proof.
  intros Hop Hreg Hdep.
  rewrite (register_after_check env w w1 w2 true Hreg Hdep).
  apply register_class_Return in Hreg as [Hfresh ->].
  pose proof (check_dependency_frame env
    (set_classes (classes w ++ [cls_ASEAddonPreferences])
       (emit (ev_register_class cls_ASEAddonPreferences) w))) as (Hc & Hm & Ha).
  pose proof (check_dependency_counts env
    (set_classes (classes w ++ [cls_ASEAddonPreferences])
       (emit (ev_register_class cls_ASEAddonPreferences) w))) as (_ & Hr & Hp).
  rewrite Hdep in Hc, Hm, Ha, Hr, Hp. simpl in *.
  assert (Hop2 : cls_ImportASEMolecule ∉ classes w2).
  { rewrite Hc. intros [?|Hin%list_elem_of_singleton]%elem_of_app; done. }
  unfold mbind, M_bind. rewrite (register_class_fresh _ _ Hop2).
  eexists. split; [reflexivity|]. simpl. rewrite Hc, Hm, <- !app_assoc. simpl.
  split; [done|]. split.
  { rewrite filter_app, length_app. simpl.
    by rewrite (filter_eq_absent _ _ Hop). }
  split; [done|]. split; [done|].
  rewrite !count_events_app, Hr, Hp, !count_events_app.
  unfold count_events; simpl. repeat split; lia.
Qed.

Lemma register_dependency_available_witness :
  ∃ w', register env_installable world_enabled = (Return tt, w')
    ∧ classes w' = [cls_other "IMPORT_SCENE_OT_obj"; cls_ASEAddonPreferences;
                    cls_ImportASEMolecule]
    ∧ import_menu w' = [fn_other "menu_func_import_obj"; fn_menu_func_import].
Proof.
  destruct (register_dependency_available env_installable world_enabled
              (register_class cls_ASEAddonPreferences world_enabled).2
              (check_dependency env_installable
                 (register_class cls_ASEAddonPreferences world_enabled).2).2)
    as (w' & Hrun & Hc & _ & Hm & _).
  - intros Hin. apply list_elem_of_singleton in Hin. discriminate Hin.
  - reflexivity.
  - reflexivity.
  - exists w'. split; [exact Hrun|]. split; [exact Hc | exact Hm].
Defined.

(** C10.  The first call [register] makes is
    [register_class(ASEAddonPreferences)]; the dependency check and all
    later calls come after it, and none is made when it raises.  Whatever the
    dependency check does, the preferences class is registered when
    [register] is left. *)
Theorem register_preferences_first (env : Env) (w : World) :
  let w' := (register env w).2 in
  (∃ rest, trace w' = trace w ++ ev_register_class cls_ASEAddonPreferences :: rest)
  ∧ cls_ASEAddonPreferences ∈ classes w'
  ∧ (cls_ASEAddonPreferences ∈ classes w →
     trace w' = trace w ++ [ev_register_class cls_ASEAddonPreferences])
  ∧ (cls_ASEAddonPreferences ∉ classes w →
     ∃ w1, register_class cls_ASEAddonPreferences w = (Return tt, w1)
       ∧ cls_ASEAddonPreferences ∈ classes w1
       ∧ classes (check_dependency env w1).2 = classes w1
       ∧ ∃ rest, trace w' = trace (check_dependency env w1).2 ++ rest).
Proof.
  cbv zeta.
  destruct (decide (cls_ASEAddonPreferences ∈ classes w)) as [Hin|Hout].
  - destruct (register_class_present _ _ Hin) as [msg Hreg].
    assert (Hr : register env w
                 = (Raise (ValueError msg), emit (ev_register_class cls_ASEAddonPreferences) w)).
    { unfold register, mbind, M_bind at 1. by rewrite Hreg. }
    rewrite Hr. simpl. split; [eauto|]. split; [done|]. split; done.
  - pose proof (register_class_fresh _ _ Hout) as Hreg.
    set (w1 := set_classes (classes w ++ [cls_ASEAddonPreferences])
                 (emit (ev_register_class cls_ASEAddonPreferences) w)) in *.
    assert (Hin1 : cls_ASEAddonPreferences ∈ classes w1).
    { simpl. apply elem_of_app. right. by apply list_elem_of_singleton. }
    pose proof (check_dependency_frame env w1) as (Hc & _ & _).
    destruct (check_dependency_trace_extends env w1) as [new Hnew].
    assert (Hrest : classes (register env w).2 = classes w1
                    ∨ classes (register env w).2 = classes w1 ++ [cls_ImportASEMolecule]).
    { destruct (check_dependency env w1) as [[dep|e] w2] eqn:Hdep; simpl in *.
      - rewrite (register_after_check env w w1 w2 dep Hreg Hdep).
        destruct dep; run; rewrite ?Hc; auto.
      - unfold register, mbind, M_bind at 1 2. rewrite Hreg, Hdep. simpl. auto. }
    assert (Htr : ∃ rest, trace (register env w).2
                          = trace (check_dependency env w1).2 ++ rest).
    { destruct (check_dependency env w1) as [[dep|e] w2] eqn:Hdep; simpl in *.
      - rewrite (register_after_check env w w1 w2 dep Hreg Hdep).
        destruct dep; run; rewrite <- ?app_assoc; eauto using app_nil_r.
      - unfold register, mbind, M_bind at 1 2. rewrite Hreg, Hdep. simpl.
        eauto using app_nil_r. }
    destruct Htr as [rest Htr].
    split; [|split; [|split; [done|]]].
    + rewrite Htr, Hnew. simpl. rewrite <- !app_assoc. simpl. eauto.
    + destruct Hrest as [->| ->]; [done|]. apply elem_of_app. by left.
    + intros _. exists w1. eauto 10.
Qed.

Lemma register_preferences_first_witness :
  ∃ w1, register_class cls_ASEAddonPreferences world_enabled = (Return tt, w1)
    ∧ cls_ASEAddonPreferences ∈ classes w1
    ∧ classes (check_dependency env_offline w1).2 = classes w1
    ∧ ∃ rest, trace (register env_offline world_enabled).2
              = trace (check_dependency env_offline w1).2 ++ rest.
Proof.
  apply (proj2 (proj2 (proj2 (register_preferences_first env_offline world_enabled)))).
  intros Hin. apply list_elem_of_singleton in Hin. discriminate Hin.
Defined.

(** ** [unregister] *)

(** The first statement of [unregister]: the [try] around the operator. *)
Lemma unregister_operator_guarded w :
  try_except (unregister_class cls_ImportASEMolecule)
    (λ e, if is_RuntimeError e then Some (print msg_skipping) else None) w
  = if decide (cls_ImportASEMolecule ∈ classes w)
    then (Return tt,
          set_classes (filter (λ x, x ≠ cls_ImportASEMolecule) (classes w))
            (emit (ev_unregister_class cls_ImportASEMolecule) w))
    else (Return tt,
          emit (ev_print msg_skipping)
            (emit (ev_unregister_class cls_ImportASEMolecule) w)).
Proof. run; done. Qed.

Lemma unregister_eq w :
  unregister w =
  let w1 := if decide (cls_ImportASEMolecule ∈ classes w)
            then set_classes (filter (λ x, x ≠ cls_ImportASEMolecule) (classes w))
                   (emit (ev_unregister_class cls_ImportASEMolecule) w)
            else emit (ev_print msg_skipping)
                   (emit (ev_unregister_class cls_ImportASEMolecule) w) in
  let w2 := set_import_menu (remove_first fn_menu_func_import (import_menu w1))
              (emit (ev_menu_remove fn_menu_func_import) w1) in
  unregister_class cls_ASEAddonPreferences w2.
Proof.
  unfold unregister, mbind, M_bind at 1 2.
  rewrite unregister_operator_guarded. by destruct (decide _).
Qed.

(** With the preferences class registered, [unregister] returns. *)
Lemma unregister_registered w :
  cls_ASEAddonPreferences ∈ classes w →
  ∃ w', unregister w = (Return tt, w')
    ∧ classes w'
      = filter (λ x, x ≠ cls_ASEAddonPreferences)
          (filter (λ x, x ≠ cls_ImportASEMolecule) (classes w))
    ∧ (cls_ImportASEMolecule ∉ classes w') ∧ (cls_ASEAddonPreferences ∉ classes w')
    ∧ import_menu w' = remove_first fn_menu_func_import (import_menu w)
    ∧ addons w' = addons w ∧ sys_path w' = sys_path w
    ∧ (cls_ImportASEMolecule ∉ classes w →
       trace w' = trace w ++ [ev_unregister_class cls_ImportASEMolecule;
                              ev_print msg_skipping;
                              ev_menu_remove fn_menu_func_import;
                              ev_unregister_class cls_ASEAddonPreferences]).
Proof.
  intros Hprefs. rewrite unregister_eq. cbv zeta.
  destruct (decide (cls_ImportASEMolecule ∈ classes w)) as [Hop|Hop].
  - rewrite unregister_class_present; simpl.
    + eexists. split; [reflexivity|]. simpl.
      split; [done|]. split.
      { intros [_ Hin]%list_elem_of_filter. by apply filter_ne_not_elem in Hin. }
      split; [apply filter_ne_not_elem|]. done.
    + apply list_elem_of_filter. done.
  - rewrite unregister_class_present; simpl; [|done].
    eexists. split; [reflexivity|]. simpl.
    rewrite (filter_ne_absent _ _ Hop), <- !app_assoc. simpl.
    split; [done|]. split.
    { by intros [_ Hin]%list_elem_of_filter. }
    split; [apply filter_ne_not_elem|]. done.
Qed.

(** Without it, [unregister] is left by the [RuntimeError] of its last
    statement. *)
Lemma unregister_unregistered w :
  cls_ASEAddonPreferences ∉ classes w →
  ∃ w', unregister w = (Raise (RuntimeError msg_not_registered), w').
Proof.
  intros Hprefs. rewrite unregister_eq. cbv zeta.
  unfold unregister_class, mbind, M_bind, log, modify, get, raise. simpl.
  destruct (decide (cls_ImportASEMolecule ∈ classes w)); simpl;
    (destruct (decide _) as [Hin|]; [|eauto]).
  - by apply list_elem_of_filter in Hin as [_ ?].
  - done.
Qed.

Lemma unregister_nothing_left w :
  cls_ImportASEMolecule ∉ classes w →
  cls_ASEAddonPreferences ∉ classes w →
  fn_menu_func_import ∉ import_menu w →
  ∃ w', unregister w = (Raise (RuntimeError msg_not_registered), w')
    ∧ host_state w' = host_state w
    ∧ trace w' = trace w ++ [ev_unregister_class cls_ImportASEMolecule;
                             ev_print msg_skipping;
                             ev_menu_remove fn_menu_func_import;
                             ev_unregister_class cls_ASEAddonPreferences].
Proof.
  intros Hop Hprefs Hmenu. rewrite unregister_eq. cbv zeta.
  destruct (decide (cls_ImportASEMolecule ∈ classes w)); [done|].
  unfold unregister_class, mbind, M_bind, log, modify, get, raise. simpl.
  destruct (decide (cls_ASEAddonPreferences ∈ classes w)); [done|].
  eexists. split; [reflexivity|]. unfold host_state. simpl.
  by rewrite (remove_first_absent _ _ Hmenu), <- !app_assoc.
Qed.

(** C2, as the code has it.  With the preferences class registered,
    [unregister] returns, whether or not the operator was ever registered:
    both classes and the first [menu_func_import] entry are gone, the
    preferences and [sys.path] are as before.  Called again, when all it
    removes is already removed, it leaves the registry, the menu, the
    preferences and [sys.path] as they are, prints the skip message, and
    is left by the [RuntimeError] of [unregister_class(ASEAddonPreferences)]. *)
Theorem unregister_behaviour (w : World) :
  (cls_ASEAddonPreferences ∈ classes w →
   ∃ w', unregister w = (Return tt, w')
     ∧ classes w'
       = filter (λ x, x ≠ cls_ASEAddonPreferences)
           (filter (λ x, x ≠ cls_ImportASEMolecule) (classes w))
     ∧ (cls_ImportASEMolecule ∉ classes w') ∧ (cls_ASEAddonPreferences ∉ classes w')
     ∧ import_menu w' = remove_first fn_menu_func_import (import_menu w)
     ∧ addons w' = addons w ∧ sys_path w' = sys_path w
     ∧ (cls_ImportASEMolecule ∉ classes w →
        trace w' = trace w ++ [ev_unregister_class cls_ImportASEMolecule;
                               ev_print msg_skipping;
                               ev_menu_remove fn_menu_func_import;
                               ev_unregister_class cls_ASEAddonPreferences]))
  ∧ (cls_ImportASEMolecule ∉ classes w →
     cls_ASEAddonPreferences ∉ classes w →
     fn_menu_func_import ∉ import_menu w →
     ∃ w', unregister w = (Raise (RuntimeError msg_not_registered), w')
       ∧ host_state w' = host_state w
       ∧ trace w' = trace w ++ [ev_unregister_class cls_ImportASEMolecule;
                                ev_print msg_skipping;
                                ev_menu_remove fn_menu_func_import;
                                ev_unregister_class cls_ASEAddonPreferences])
  ∧ (∀ w1, unregister w = (Return tt, w1) →
     fn_menu_func_import ∉ import_menu w1 →
     ∃ w2, unregister w1 = (Raise (RuntimeError msg_not_registered), w2)
       ∧ host_state w2 = host_state w1).
Proof.
  split; [apply unregister_registered|]. split; [apply unregister_nothing_left|].
  intros w1 Hrun Hmenu.
  destruct (decide (cls_ASEAddonPreferences ∈ classes w)) as [Hin|Hout].
  - destruct (unregister_registered w Hin) as (w' & Hrun' & _ & Hop & Hprefs & _).
    rewrite Hrun in Hrun'. simplify_eq.
    destruct (unregister_nothing_left w' Hop Hprefs Hmenu) as (w2 & ? & ? & _).
    eauto.
  - destruct (unregister_unregistered w Hout) as [w' Hraise].
    rewrite Hraise in Hrun. discriminate Hrun.
Qed.

Lemma unregister_behaviour_witness :
  ∃ w', unregister (register env_offline world_enabled).2 = (Return tt, w')
    ∧ classes w' = [cls_other "IMPORT_SCENE_OT_obj"]
    ∧ import_menu w' = [fn_other "menu_func_import_obj"].
Proof.
  destruct (proj1 (unregister_behaviour (register env_offline world_enabled).2))
    as (w' & Hrun & Hc & _ & _ & Hm & _).
  - apply list_elem_of_In. right. left. reflexivity.
  - exists w'. split; [exact Hrun|]. split; [exact Hc | exact Hm].
Defined.

(** C2, as stated, fails: the dependency check has failed, so the operator
    was never registered; the first [unregister] returns, the second one
    raises. *)
Lemma unregister_twice_raises :
  let w1 := (register env_offline world_enabled).2 in
  let w2 := (unregister w1).2 in
  count_events (is_register_of cls_ImportASEMolecule) (trace w2) = 0%nat
  ∧ (unregister w1).1 = Return tt
  ∧ (unregister w2).1 = Raise (RuntimeError msg_not_registered)
  ∧ host_state (unregister w2).2 = host_state w2
  ∧ trace (unregister w2).2 ≠ trace w2.
Proof. vm_compute. repeat split; discriminate. Qed.

(** ** [execute] *)

Lemma drop_trace_app (t new : list event) : drop (length t) (t ++ new) = new.
Proof. by rewrite drop_app_length. Qed.

Lemma execute_file_eq env self file w :
  execute_file env self file w =
  let w1 := emit (ev_import ".ui") w in
  match ext_import env w1 ".ui" with
  | Some e => (Raise e, w1)
  | None =>
      let args := [PyStr (os_path_join env (directory self) (elem_name file));
                   PyStr (elem_name file)] in
      let w2 := emit (ev_import_ase_molecule args (execute_kwargs self)) w1 in
      match ext_import_ase_molecule env w2 args (execute_kwargs self) with
      | Some e => (Raise e, w2)
      | None => (Return tt, w2)
      end
  end.
Proof. unfold execute_file. run; done. Qed.

(** The loop calls [import_ase_molecule] for a prefix of the files, in
    order, once each; for all of them when it is left normally.  It writes
    nothing but the trace. *)
Lemma execute_loop_spec env self fs : ∀ w,
  ∃ new n,
    trace (execute_loop env self fs w).2 = trace w ++ new
    ∧ (n ≤ length fs)%nat
    ∧ invocations new
      = map (λ file, ([PyStr (os_path_join env (directory self) (elem_name file));
                       PyStr (elem_name file)], execute_kwargs self))
          (take n fs)
    ∧ ((execute_loop env self fs w).1 = Return tt → n = length fs)
    ∧ host_state (execute_loop env self fs w).2 = host_state w.
Proof.
  induction fs as [|file rest IH]; intros w.
  - exists [], 0%nat. simpl. by rewrite app_nil_r.
  - simpl. unfold mbind, M_bind. rewrite execute_file_eq. cbv zeta.
    destruct (ext_import env _ _) as [e|].
    { exists [ev_import ".ui"], 0%nat. simpl. repeat split; [lia|done]. }
    destruct (ext_import_ase_molecule env _ _ _) as [e|].
    { eexists [ev_import ".ui"; ev_import_ase_molecule _ _], 1%nat. simpl.
      rewrite <- app_assoc. repeat split; [lia|done]. }
    match goal with |- context [execute_loop env self rest ?w0] =>
      destruct (IH w0) as (new & n & Ht & Hn & Hi & Hr & Hh) end.
    eexists (ev_import ".ui" :: ev_import_ase_molecule _ _ :: new), (S n).
    rewrite Ht, Hh. simpl. rewrite <- !app_assoc, Hi. simpl.
    repeat split; [lia|]. intros Hret. f_equal. auto.
Qed.


Lemma execute_eq env self w :
  execute env self w =
  match execute_loop env self (files self) w with
  | (Return _, w') => (Return {["FINISHED"]}, w')
  | (Raise e, w') => (Raise e, w')
  end.
Proof. reflexivity. Qed.

(** The loop over a concatenation is the loop over the first part, then the
    loop over the second. *)
Lemma execute_loop_app env self fs1 fs2 : ∀ w,
  execute_loop env self (fs1 ++ fs2) w
  = (execute_loop env self fs1;; execute_loop env self fs2) w.
Proof.
  induction fs1 as [|file fs1 IH]; intros w; [done|].
  simpl. unfold mbind, M_bind in *.
  destruct (execute_file env self file w) as [[[]|e] w1]; [apply IH|done].
Qed.

(** The trace of a loop that is left normally. *)
Lemma execute_loop_trace env self fs : ∀ w w',
  execute_loop env self fs w = (Return tt, w') →
  trace w' = trace w ++ flat_map (execute_file_events env self) fs.
Proof.
  induction fs as [|file rest IH]; intros w w'; simpl.
  - intros [= <-]. by rewrite app_nil_r.
  - unfold mbind, M_bind. rewrite execute_file_eq. cbv zeta.
    destruct (ext_import env _ _) as [e|]; [done|].
    destruct (ext_import_ase_molecule env _ _ _) as [e|]; [done|].
    intros Hrest. rewrite (IH _ _ Hrest). simpl. by rewrite <- !app_assoc.
Qed.

Lemma invocations_flat_map env self fs :
  invocations (flat_map (execute_file_events env self) fs)
  = map (λ file, ([PyStr (os_path_join env (directory self) (elem_name file));
                   PyStr (elem_name file)], execute_kwargs self)) fs.
Proof. induction fs as [|file fs IH]; [done|]. simpl. by rewrite IH. Qed.

(** Where [execute] stands when the loop has gone through the files before
    [file]: the import of [ui] for [file] is next, then the call. *)
Lemma execute_at_file env self fs1 file fs2 w w1 :
  files self = fs1 ++ file :: fs2 →
  execute_loop env self fs1 w = (Return tt, w1) →
  let w_ui := emit (ev_import ".ui") w1 in
  let args := [PyStr (os_path_join env (directory self) (elem_name file));
               PyStr (elem_name file)] in
  let w_call := emit (ev_import_ase_molecule args (execute_kwargs self)) w_ui in
  match ext_import env w_ui ".ui" with
  | Some e => execute env self w = (Raise e, w_ui)
  | None =>
      match ext_import_ase_molecule env w_call args (execute_kwargs self) with
      | Some e => execute env self w = (Raise e, w_call)
      | None => ∃ new, trace (execute env self w).2 = trace w_call ++ new
      end
  end.
Proof.
  intros Hfiles Hpre. cbv zeta.
  rewrite execute_eq, Hfiles, execute_loop_app. unfold mbind, M_bind.
  rewrite Hpre. simpl. unfold mbind, M_bind. rewrite execute_file_eq. cbv zeta.
  destruct (ext_import env _ _) as [e|]; [done|].
  destruct (ext_import_ase_molecule env _ _ _) as [e|]; [done|].
  match goal with |- context [execute_loop env self fs2 ?w0] =>
    destruct (execute_loop_spec env self fs2 w0) as (new & _ & Ht & _) end.
  exists new. by destruct (execute_loop env self fs2 _) as [[[]|e] w'].
Qed.

(** The loop emits imports of [ui] and calls of [import_ase_molecule], and
    nothing else. *)
Lemma execute_loop_event_kinds env self fs : ∀ w,
  ∃ new, trace (execute_loop env self fs w).2 = trace w ++ new
    ∧ Forall (λ ev, is_import_of ".ui" ev || is_import_ase_molecule ev = true) new.
Proof.
  induction fs as [|file rest IH]; intros w.
  - exists []. simpl. by rewrite app_nil_r.
  - simpl. unfold mbind, M_bind. rewrite execute_file_eq. cbv zeta.
    destruct (ext_import env _ _) as [e|].
    { exists [ev_import ".ui"]. simpl. split; [done|]. by repeat constructor. }
    destruct (ext_import_ase_molecule env _ _ _) as [e|].
    { eexists [ev_import ".ui"; ev_import_ase_molecule _ _]. simpl.
      rewrite <- app_assoc. split; [done|]. by repeat constructor. }
    match goal with |- context [execute_loop env self rest ?w0] =>
      destruct (IH w0) as (new & Ht & Hk) end.
    eexists (ev_import ".ui" :: ev_import_ase_molecule _ _ :: new).
    rewrite Ht. simpl. rewrite <- !app_assoc. split; [done|].
    by repeat constructor.
Qed.

(** C5, as the code has it.  [execute] has one call site of
    [import_ase_molecule], inside the loop over the selected files: the calls
    it makes are those of a prefix of [files], in order and one per file, and
    of all files when [execute] returns.  Each call receives the directory
    joined with the file's name, the file's name, and the same 14 distinct
    keyword arguments. *)
Theorem execute_one_invocation_per_file (env : Env) (self : ImportASEMolecule)
    (w : World) :
  let call := λ file : OperatorFileListElement,
    ([PyStr (os_path_join env (directory self) (elem_name file));
      PyStr (elem_name file)], execute_kwargs self) in
  (∃ n, (n ≤ length (files self))%nat
     ∧ invocations (emitted (execute env self) w) = map call (take n (files self)))
  ∧ (∀ s, (execute env self w).1 = Return s →
       invocations (emitted (execute env self) w) = map call (files self)
       ∧ count_events is_import_ase_molecule (emitted (execute env self) w)
         = length (files self))
  ∧ length (execute_kwargs self) = 14%nat
  ∧ NoDup (execute_kwargs self).*1.
Proof.
  cbv zeta. unfold emitted. rewrite execute_eq.
  destruct (execute_loop_spec env self (files self) w)
    as (new & n & Ht & Hn & Hi & Hr & _).
  assert (Htr : trace (match execute_loop env self (files self) w with
                       | (Return _, w') => (Return ({["FINISHED"]} : gset string), w')
                       | (Raise e, w') => (Raise e, w')
                       end).2 = trace w ++ new).
  { by destruct (execute_loop env self (files self) w) as [[[]|e] w']. }
  rewrite Htr, drop_trace_app.
  split; [eauto|]. split; [|split; [done|]].
  - intros s Hs.
    assert (n = length (files self)) as ->.
    { apply Hr. by destruct (execute_loop env self (files self) w) as [[[]|e] w']. }
    rewrite firstn_all in Hi. split; [done|].
    assert (Hcount : ∀ t, count_events is_import_ase_molecule t = length (invocations t)).
    { induction t as [|ev t IHt]; [done|].
      unfold count_events in *. destruct ev; simpl; by rewrite ?IHt. }
    by rewrite Hcount, Hi, length_map.
  - simpl. apply (bool_decide_unpack _). by vm_compute.
Qed.

Lemma execute_one_invocation_per_file_witness :
  invocations (emitted (execute env_ase_present op_two_files) world_enabled)
  = [([PyStr "/data/run1/h2o.xyz"; PyStr "h2o.xyz"], execute_kwargs op_two_files);
     ([PyStr "/data/run1/md.traj"; PyStr "md.traj"], execute_kwargs op_two_files)]
  ∧ count_events is_import_ase_molecule
      (emitted (execute env_ase_present op_two_files) world_enabled) = 2%nat.
Proof.
  apply (proj1 (proj2 (execute_one_invocation_per_file env_ase_present
                         op_two_files world_enabled)) {["FINISHED"]}).
  reflexivity.
Defined.

(** C5, as stated, fails: with two selected files [execute] makes two
    invocations, with none it makes none. *)
Lemma execute_two_files_two_invocations :
  count_events is_import_ase_molecule
    (emitted (execute env_ase_present op_two_files) world_enabled) = 2%nat
  ∧ count_events is_import_ase_molecule
      (emitted (execute env_ase_present ImportASEMolecule_default) world_enabled) = 0%nat.
Proof. split; reflexivity. Qed.

(** C6.  [execute] passes the property values verbatim.  Whenever the loop
    reaches a file and the import of [ui] succeeds, the call for that file is
    made, at the file's position among the calls, with the joined path and
    the name, and each keyword argument is the value of the operator's
    property, unchanged: the property of the same name, and [zero_cell] under
    the keyword [shift_cell]; [representation] is the identifier of the
    selected item.  When [execute] returns there is one such call per file,
    and no call [execute] makes carries anything else. *)
Theorem execute_passes_properties_verbatim (env : Env) (self : ImportASEMolecule)
    (w : World) :
  let verbatim := λ kwargs : list (string * pyval),
    kwarg "scale" kwargs = Some (PyFloat (scale self))
    ∧ kwarg "resolution" kwargs = Some (PyInt (resolution self))
    ∧ kwarg "colorbonds" kwargs = Some (PyBool (colorbonds self))
    ∧ kwarg "fix_bonds" kwargs = Some (PyBool (fix_bonds self))
    ∧ kwarg "color" kwargs = Some (PyFloat (color self))
    ∧ kwarg "unit_cell" kwargs = Some (PyBool (unit_cell self))
    ∧ kwarg "representation" kwargs
      = Some (PyStr (representation_identifier (representation self)))
    ∧ kwarg "read_density" kwargs = Some (PyBool (read_density self))
    ∧ kwarg "shift_cell" kwargs = Some (PyBool (zero_cell self))
    ∧ kwarg "animate" kwargs = Some (PyBool (animate self))
    ∧ kwarg "imageslice" kwargs = Some (PyInt (imageslice self))
    ∧ kwarg "overwrite" kwargs = Some (PyBool (overwrite self))
    ∧ kwarg "outline" kwargs = Some (PyBool (outline self))
    ∧ kwarg "add_supercell" kwargs = Some (PyBool (add_supercell self)) in
  (∀ fs1 file fs2 w1,
     files self = fs1 ++ file :: fs2 →
     execute_loop env self fs1 w = (Return tt, w1) →
     ext_import env (emit (ev_import ".ui") w1) ".ui" = None →
     ∃ kwargs,
       invocations (emitted (execute env self) w) !! length fs1
       = Some ([PyStr (os_path_join env (directory self) (elem_name file));
                PyStr (elem_name file)], kwargs)
       ∧ verbatim kwargs)
  ∧ (∀ s, (execute env self w).1 = Return s →
       length (invocations (emitted (execute env self) w)) = length (files self))
  ∧ Forall (λ call : list pyval * list (string * pyval), verbatim call.2)
      (invocations (emitted (execute env self) w)).
Proof.
  cbv zeta. split; [|split].
  - intros fs1 file fs2 w1 Hfiles Hpre Hui.
    exists (execute_kwargs self). split; [|repeat split].
    pose proof (execute_loop_trace env self fs1 w w1 Hpre) as Ht1.
    pose proof (execute_at_file env self fs1 file fs2 w w1 Hfiles Hpre) as Hat.
    cbv zeta in Hat. rewrite Hui in Hat.
    assert (Htr : ∃ new, trace (execute env self w).2
      = trace w ++ flat_map (execute_file_events env self) fs1
        ++ execute_file_events env self file ++ new).
    { destruct (ext_import_ase_molecule env _ _ _) as [e|].
      - exists []. rewrite Hat. simpl. by rewrite Ht1, <- !app_assoc.
      - destruct Hat as [new ->]. exists new. simpl. by rewrite Ht1, <- !app_assoc. }
    destruct Htr as [new Htr]. unfold emitted. rewrite Htr, drop_trace_app.
    rewrite invocations_app, invocations_flat_map. simpl.
    rewrite lookup_app_r by (by rewrite length_map).
    by rewrite length_map, Nat.sub_diag.
  - intros s Hs. unfold emitted. revert Hs. rewrite execute_eq.
    destruct (execute_loop env self (files self) w) as [[[]|e] w'] eqn:Hloop;
      [intros _|done]. simpl.
    rewrite (execute_loop_trace env self _ w w' Hloop), drop_trace_app.
    by rewrite invocations_flat_map, length_map.
  - unfold emitted. rewrite execute_eq.
    destruct (execute_loop_spec env self (files self) w)
      as (new & n & Ht & _ & Hi & _ & _).
    assert (Htr : trace (match execute_loop env self (files self) w with
                         | (Return _, w') => (Return ({["FINISHED"]} : gset string), w')
                         | (Raise e, w') => (Raise e, w')
                         end).2 = trace w ++ new).
    { by destruct (execute_loop env self (files self) w) as [[[]|e] w']. }
    rewrite Htr, drop_trace_app, Hi.
    apply Forall_forall. intros call (file & -> & _)%list_elem_of_fmap.
    repeat split.
Qed.

Lemma execute_passes_properties_verbatim_witness :
  ∃ kwargs,
    invocations (emitted (execute env_second_file_fails op_two_files) world_enabled)
      !! 1%nat
    = Some ([PyStr "/data/run1/md.traj"; PyStr "md.traj"], kwargs)
    ∧ kwarg "scale" kwargs = Some (PyFloat float_0_5)
    ∧ kwarg "representation" kwargs = Some (PyStr "Licorice")
    ∧ kwarg "shift_cell" kwargs = Some (PyBool true)
    ∧ kwarg "imageslice" kwargs = Some (PyInt 2).
Proof.
  destruct (proj1 (execute_passes_properties_verbatim env_second_file_fails
                     op_two_files world_enabled)
              [{| elem_name := "h2o.xyz" |}] {| elem_name := "md.traj" |} []
              (execute_loop env_second_file_fails op_two_files
                 [{| elem_name := "h2o.xyz" |}] world_enabled).2
              eq_refl eq_refl eq_refl)
    as (kwargs & Hcall & Hs & _ & _ & _ & _ & _ & Hr & _ & Hz & _ & Hi & _).
  exists kwargs. split; [exact Hcall|].
  split; [exact Hs|]. split; [exact Hr|]. split; [exact Hz | exact Hi].
Defined.



(** * Further properties of the module *)

(** ** More on [check_dependency] *)

Ltac emitted_norm :=
  unfold emitted; simpl; rewrite <- ?app_assoc; simpl;
  rewrite ?drop_trace_app; simpl.

(** [sys.path] after one call: as before, or longer by the install
    directory, which was absent. *)
Lemma check_dependency_sys_path_cases env w :
  sys_path (check_dependency env w).2 = sys_path w
  ∨ ∃ sp, script_path_user env = Some sp
      ∧ (os_path_join env sp "modules" ∉ sys_path w)
      ∧ sys_path (check_dependency env w).2
        = sys_path w ++ [os_path_join env sp "modules"].
Proof.
  rewrite check_dependency_eq; cbv zeta. rewrite install_ase_eq; cbv zeta.
  destruct (script_path_user env) as [sp|] eqn:Hsp.
  - repeat (run_step; simpl in * ); eauto 10.
  - repeat (run_step; simpl in * ); eauto.
Qed.

(** X1.  [check_dependency] returns [True] in exactly two ways: the first
    [import ase] succeeds, and then nothing else is done; or it fails with an
    [ImportError], the installer exits with status 0 and the second
    [import ase] succeeds, and then "Installed ASE" is printed last. *)
Theorem check_dependency_True_iff (env : Env) (w w' : World) :
  check_dependency env w = (Return true, w') ↔
  (ext_import env (emit (ev_import "ase") w) "ase" = None
   ∧ w' = emit (ev_import "ase") w)
  ∨ (∃ e0 sp,
       ext_import env (emit (ev_import "ase") w) "ase" = Some e0
       ∧ is_ImportError e0 = true
       ∧ script_path_user env = Some sp
       ∧ ext_run env (installer_world env w (os_path_join env sp "modules"))
           (pip_argv (sys_executable env) (os_path_join env sp "modules")) = inr 0
       ∧ ext_import env (reimport_world env w (os_path_join env sp "modules")) "ase"
         = None
       ∧ w' = emit (ev_print "Installed ASE")
                (reimport_world env w (os_path_join env sp "modules"))).
Proof.
  rewrite check_dependency_eq; cbv zeta. rewrite install_ase_eq; cbv zeta.
  unfold reimport_world, installer_world. split.
  - destruct (ext_import env (emit (ev_import "ase") w) "ase") as [e0|] eqn:H0;
      [|intros; simplify_eq; by left].
    destruct (is_ImportError e0) eqn:He0; [|done].
    destruct (script_path_user env) as [sp|] eqn:Hsp; [|done]. simpl.
    destruct (ext_run env _ _) as [e|rc] eqn:Hrun; simpl.
    { destruct (is_CalledProcessError e), (is_ImportError e); done. }
    destruct (decide (rc = 0)) as [->|]; [|done].
    destruct (ext_import env (emit (ev_import "ase") (emit ev_invalidate_caches _)) "ase")
      as [e|] eqn:Hre; simpl.
    { destruct (is_CalledProcessError e), (is_ImportError e); done. }
    intros; simplify_eq. right. exists e0, sp. simpl in *. eauto 10.
  - intros [[-> ->]|(e0 & sp & -> & -> & -> & Hrun & Hre & ->)]; [done|].
    simpl in *. rewrite Hrun. simpl. by rewrite Hre.
Qed.

Lemma check_dependency_True_iff_witness :
  check_dependency env_installable world_enabled
  = (Return true,
     emit (ev_print "Installed ASE")
       (reimport_world env_installable world_enabled
          "/home/user/.config/blender/4.4/scripts/modules")).
Proof.
  apply (proj2 (check_dependency_True_iff env_installable world_enabled _)).
  right. exists (ModuleNotFoundError "No module named 'ase'"),
    "/home/user/.config/blender/4.4/scripts".
  repeat split; reflexivity.
Defined.

(** X2.  When ASE is missing and Blender reports no user script directory,
    joining [None] with "modules" raises a [TypeError] that no [except]
    clause catches: it leaves [check_dependency] right after the first
    message, and the installer is never started. *)
Theorem check_dependency_no_script_path (env : Env) (w : World) (e0 : exn) :
  ext_import env (emit (ev_import "ase") w) "ase" = Some e0 →
  is_ImportError e0 = true →
  script_path_user env = None →
  (∃ msg, check_dependency env w
          = (Raise (TypeError msg),
             emit (ev_print msg_attempting_install) (emit (ev_import "ase") w)))
  ∧ check_calls (emitted (check_dependency env) w) = []
  ∧ host_state (check_dependency env w).2 = host_state w.
Proof.
  intros H0 He0 Hsp. unfold emitted.
  rewrite check_dependency_eq; cbv zeta. rewrite install_ase_eq; cbv zeta.
  rewrite H0, He0, Hsp. simpl. split; [eauto|].
  split; [|done]. by rewrite <- app_assoc, drop_trace_app.
Qed.

Lemma check_dependency_no_script_path_witness :
  (∃ msg, check_dependency env_no_script_path world_enabled
          = (Raise (TypeError msg),
             emit (ev_print msg_attempting_install)
               (emit (ev_import "ase") world_enabled)))
  ∧ check_calls (emitted (check_dependency env_no_script_path) world_enabled) = []
  ∧ host_state (check_dependency env_no_script_path world_enabled).2
    = host_state world_enabled.
Proof.
  apply (check_dependency_no_script_path env_no_script_path world_enabled
           (ModuleNotFoundError "No module named 'ase'")); reflexivity.
Defined.

(** X3.  When the installer process cannot be started, the exception of the
    spawn (an [OSError], say) is neither a [CalledProcessError] nor an
    [ImportError]: it leaves [check_dependency], no failure message is
    printed, and [sys.path] is not touched. *)
Theorem check_dependency_spawn_failure (env : Env) (w : World) (e0 e : exn)
    (sp : string) :
  ext_import env (emit (ev_import "ase") w) "ase" = Some e0 →
  is_ImportError e0 = true →
  script_path_user env = Some sp →
  ext_run env (installer_world env w (os_path_join env sp "modules"))
    (pip_argv (sys_executable env) (os_path_join env sp "modules")) = inl e →
  is_CalledProcessError e = false →
  is_ImportError e = false →
  check_dependency env w
  = (Raise e, installer_world env w (os_path_join env sp "modules"))
  ∧ emitted (check_dependency env) w
    = [ev_import "ase"; ev_print msg_attempting_install;
       ev_check_call (pip_argv (sys_executable env) (os_path_join env sp "modules"))]
  ∧ host_state (check_dependency env w).2 = host_state w.
Proof.
  intros H0 He0 Hsp Hrun Hc Hi. unfold emitted.
  rewrite check_dependency_eq; cbv zeta. rewrite install_ase_eq; cbv zeta.
  unfold installer_world in *. rewrite H0, He0, Hsp. simpl. rewrite Hrun, Hc, Hi.
  simpl. split; [done|]. split; [|done].
  by rewrite <- !app_assoc, drop_trace_app.
Qed.

Lemma check_dependency_spawn_failure_witness :
  check_dependency env_no_python world_enabled
  = (Raise (OSError "[Errno 2] No such file or directory: ''"),
     installer_world env_no_python world_enabled
       "/home/user/.config/blender/4.4/scripts/modules")
  ∧ emitted (check_dependency env_no_python) world_enabled
    = [ev_import "ase"; ev_print msg_attempting_install;
       ev_check_call
         (pip_argv "" "/home/user/.config/blender/4.4/scripts/modules")]
  ∧ host_state (check_dependency env_no_python world_enabled).2
    = host_state world_enabled.
Proof.
  apply (check_dependency_spawn_failure env_no_python world_enabled
           (ModuleNotFoundError "No module named 'ase'")
           (OSError "[Errno 2] No such file or directory: ''")
           "/home/user/.config/blender/4.4/scripts"); reflexivity.
Defined.

(** X4.  [check_dependency] writes [sys.path] and nothing else of the
    process: the class registry, the import menu and the add-on preferences
    are as before, it makes no [register_class] and no menu [append] call,
    and [sys.path] keeps its entries in place. *)
Theorem check_dependency_writes_only_sys_path (env : Env) (w : World) :
  let w' := (check_dependency env w).2 in
  classes w' = classes w
  ∧ import_menu w' = import_menu w
  ∧ addons w' = addons w
  ∧ (∀ c, count_events (is_register_of c) (trace w')
          = count_events (is_register_of c) (trace w))
  ∧ (∀ f, count_events (is_menu_append_of f) (trace w')
          = count_events (is_menu_append_of f) (trace w))
  ∧ sys_path w `prefix_of` sys_path w'.
Proof.
  cbv zeta.
  destruct (check_dependency_frame env w) as (Hc & Hm & Ha).
  destruct (check_dependency_counts env w) as (_ & Hr & Hp).
  repeat split; try done.
  destruct (check_dependency_sys_path_cases env w) as [->|(sp & _ & _ & ->)];
    [done|by apply prefix_app_r].
Qed.

(** X5.  The only process [check_dependency] ever starts is
    [<sys.executable> -m pip install --target <script_path_user>/modules ase],
    and it starts it at most once. *)
Theorem check_dependency_only_pip (env : Env) (w : World) :
  check_calls (emitted (check_dependency env) w) = []
  ∨ ∃ sp, script_path_user env = Some sp
      ∧ check_calls (emitted (check_dependency env) w)
        = [[sys_executable env; "-m"; "pip"; "install"; "--target";
            os_path_join env sp "modules"; "ase"]].
Proof.
  unfold emitted. rewrite check_dependency_eq; cbv zeta.
  rewrite install_ase_eq; cbv zeta.
  destruct (script_path_user env) as [sp|] eqn:Hsp.
  - repeat (run_step; simpl in * );
      rewrite <- ?app_assoc, ?drop_trace_app; simpl; eauto.
  - repeat (run_step; simpl in * );
      rewrite <- ?app_assoc, ?drop_trace_app; simpl; eauto.
Qed.

(** X6.  However often [check_dependency] is called, [sys.path] gains at most
    one entry in all: after any number of calls it is as at the start, or
    longer by the install directory, which was absent at the start. *)
Theorem check_dependency_repeated_sys_path (env : Env) (n : nat) (w : World) :
  let wn := Nat.iter n (λ w0, (check_dependency env w0).2) w in
  sys_path wn = sys_path w
  ∨ ∃ sp, script_path_user env = Some sp
      ∧ (os_path_join env sp "modules" ∉ sys_path w)
      ∧ sys_path wn = sys_path w ++ [os_path_join env sp "modules"].
Proof.
  cbv zeta. induction n as [|n IH]; [by left|].
  simpl.
  destruct (check_dependency_sys_path_cases env
              (Nat.iter n (λ w0, (check_dependency env w0).2) w))
    as [->|(sp & Hsp & Hnew & ->)]; [exact IH|].
  destruct IH as [Heq|(sp' & Hsp' & Hout & Heq)].
  - right. exists sp. rewrite Heq in *. done.
  - exfalso. rewrite Hsp in Hsp'. simplify_eq. apply Hnew. rewrite Heq.
    apply elem_of_app. right. by apply list_elem_of_singleton.
Qed.

(** ** More on [register] and [unregister] *)

(** What [register] leaves behind, outcome by outcome: nothing when the
    preferences class was registered already; the preferences class alone;
    or both classes and the menu entry. *)
Lemma register_cases env w :
  let r := register env w in
  (cls_ASEAddonPreferences ∈ classes w
   ∧ (∃ msg, r = (Raise (ValueError msg),
                  emit (ev_register_class cls_ASEAddonPreferences) w)))
  ∨ ((cls_ASEAddonPreferences ∉ classes w)
     ∧ classes r.2 = classes w ++ [cls_ASEAddonPreferences]
     ∧ import_menu r.2 = import_menu w
     ∧ (addons r.2 = addons w
        ∨ is_Some (addons w !! module_name env)
          ∧ addons r.2
            = <[module_name env := {| install_failed := true |}]> (addons w)))
  ∨ ((cls_ASEAddonPreferences ∉ classes w)
     ∧ (cls_ImportASEMolecule ∉ classes w)
     ∧ r.1 = Return tt
     ∧ classes r.2 = classes w ++ [cls_ASEAddonPreferences; cls_ImportASEMolecule]
     ∧ import_menu r.2 = import_menu w ++ [fn_menu_func_import]
     ∧ addons r.2 = addons w).
Proof.
  cbv zeta.
  destruct (decide (cls_ASEAddonPreferences ∈ classes w)) as [Hin|Hout].
  { left. split; [done|]. destruct (register_class_present _ _ Hin) as [msg Hreg].
    exists msg. unfold register, mbind, M_bind at 1. by rewrite Hreg. }
  right.
  pose proof (register_class_fresh _ _ Hout) as Hreg.
  set (w1 := set_classes (classes w ++ [cls_ASEAddonPreferences])
               (emit (ev_register_class cls_ASEAddonPreferences) w)) in *.
  pose proof (check_dependency_frame env w1) as (Hc & Hm & Ha).
  destruct (check_dependency env w1) as [[dep|e] w2] eqn:Hdep; simpl in *.
  - rewrite (register_after_check env w w1 w2 dep Hreg Hdep).
    destruct dep.
    + destruct (decide (cls_ImportASEMolecule ∈ classes w)) as [Hop|Hop].
      * left. split; [done|].
        assert (Hop2 : cls_ImportASEMolecule ∈ classes w2).
        { rewrite Hc. apply elem_of_app. by left. }
        destruct (register_class_present _ _ Hop2) as [msg Hr].
        unfold mbind, M_bind. rewrite Hr. simpl. rewrite Hc, Hm, Ha. auto.
      * right. split; [done|]. split; [done|].
        assert (Hop2 : cls_ImportASEMolecule ∉ classes w2).
        { rewrite Hc. intros [?|Hin%list_elem_of_singleton]%elem_of_app; done. }
        unfold mbind, M_bind. rewrite (register_class_fresh _ _ Hop2). simpl.
        rewrite Hc, Hm, Ha, <- app_assoc. done.
    + left. split; [done|]. rewrite Ha.
      destruct (addons w !! module_name env) eqn:Hlook; simpl;
        rewrite ?Hc, ?Hm, ?Ha; eauto 10.
  - left. split; [done|].
    assert (Hr : register env w = (Raise e, w2)).
    { unfold register, mbind, M_bind at 1 2. by rewrite Hreg, Hdep. }
    rewrite Hr. simpl. rewrite Hc, Hm, Ha. auto.
Qed.

(** What [unregister] leaves behind, whatever its outcome. *)
Lemma unregister_state w :
  let w' := (unregister w).2 in
  classes w'
  = filter (λ x, x ≠ cls_ASEAddonPreferences)
      (filter (λ x, x ≠ cls_ImportASEMolecule) (classes w))
  ∧ import_menu w' = remove_first fn_menu_func_import (import_menu w)
  ∧ addons w' = addons w ∧ sys_path w' = sys_path w.
Proof.
  cbv zeta. rewrite unregister_eq. cbv zeta.
  unfold unregister_class, mbind, M_bind, log, modify, get, raise. simpl.
  destruct (decide (cls_ImportASEMolecule ∈ classes w)) as [Hop|Hop]; simpl;
    (destruct (decide _) as [Hin|Hout]; simpl; (split; [|done])).
  - done.
  - symmetry. by apply filter_ne_absent.
  - by rewrite (filter_ne_absent _ _ Hop).
  - rewrite (filter_ne_absent _ _ Hop). symmetry. by apply filter_ne_absent.
Qed.

Lemma filter_ne_app_own (l : list bpy_class) :
  cls_ASEAddonPreferences ∉ l → cls_ImportASEMolecule ∉ l →
  filter (λ x, x ≠ cls_ASEAddonPreferences)
    (filter (λ x, x ≠ cls_ImportASEMolecule)
       (l ++ [cls_ASEAddonPreferences; cls_ImportASEMolecule])) = l
  ∧ filter (λ x, x ≠ cls_ASEAddonPreferences)
      (filter (λ x, x ≠ cls_ImportASEMolecule) (l ++ [cls_ASEAddonPreferences])) = l.
Proof.
  intros Hp Ho. rewrite !filter_app, (filter_ne_absent _ _ Ho),
    (filter_ne_absent _ _ Hp). simpl. by rewrite !app_nil_r.
Qed.

Lemma remove_first_app_new (f : draw_func) (l : list draw_func) :
  f ∉ l → remove_first f (l ++ [f]) = l.
Proof.
  induction l as [|g l IH]; simpl.
  - by destruct (decide (f = f)).
  - intros [Hg Hl]%not_elem_of_cons.
    destruct (decide (g = f)); [congruence|]. f_equal. auto.
Qed.

(** X7.  Registering twice: after a [register] that returned, a second
    [register] raises [ValueError] at its first statement.  It runs no
    dependency check and changes nothing, so the menu gets no second entry. *)
Theorem register_twice_raises (env env' : Env) (w w1 : World) :
  register env w = (Return tt, w1) →
  ∃ msg, register env' w1
         = (Raise (ValueError msg), emit (ev_register_class cls_ASEAddonPreferences) w1).
Proof.
  intros Hrun.
  assert (Hin : cls_ASEAddonPreferences ∈ classes w1).
  { destruct (register_cases env w) as [(_ & msg & Hr)|[(_ & Hc & _)|(_ & _ & _ & Hc & _)]];
      rewrite Hrun in *; simpl in *; [done| |]; rewrite Hc;
      apply list_elem_of_In, in_app_iff; right; by left. }
  destruct (register_cases env' w1) as [(_ & Hr)|[(Hout & _)|(Hout & _)]]; done.
Qed.

Lemma register_twice_raises_witness :
  ∃ msg, register env_offline (register env_installable world_enabled).2
         = (Raise (ValueError msg),
            emit (ev_register_class cls_ASEAddonPreferences)
              (register env_installable world_enabled).2).
Proof.
  apply (register_twice_raises env_installable env_offline world_enabled).
  reflexivity.
Defined.

(** X8.  When the dependency check fails and the preferences hold no entry
    under [__name__] (the file run as a script, say), [register] is left by
    the [KeyError] of the lookup: no flag is set, and the preferences class
    stays registered. *)
Theorem register_missing_addon_entry (env : Env) (w w1 w2 : World) :
  register_class cls_ASEAddonPreferences w = (Return tt, w1) →
  check_dependency env w1 = (Return false, w2) →
  addons w !! module_name env = None →
  register env w = (Raise (KeyError (module_name env)), w2)
  ∧ cls_ASEAddonPreferences ∈ classes w2
  ∧ addons w2 = addons w.
Proof.
  intros Hreg Hdep Hnone.
  rewrite (register_after_check env w w1 w2 false Hreg Hdep).
  apply register_class_Return in Hreg as [Hfresh ->].
  pose proof (check_dependency_frame env
    (set_classes (classes w ++ [cls_ASEAddonPreferences])
       (emit (ev_register_class cls_ASEAddonPreferences) w))) as (Hc & _ & Ha).
  rewrite Hdep in Hc, Ha. simpl in *. rewrite Ha, Hnone, Hc.
  split; [done|]. split; [|done].
  apply list_elem_of_In, in_app_iff; right; by left.
Qed.

Lemma register_missing_addon_entry_witness :
  ∃ w2, register env_script world_enabled = (Raise (KeyError "__main__"), w2)
    ∧ cls_ASEAddonPreferences ∈ classes w2
    ∧ addons w2 = addons world_enabled.
Proof.
  eexists.
  apply (register_missing_addon_entry env_script world_enabled
           (register_class cls_ASEAddonPreferences world_enabled).2
           (check_dependency env_script
              (register_class cls_ASEAddonPreferences world_enabled).2).2);
    reflexivity.
Defined.

(** X9.  [register] and [unregister] never clear [install_failed]: with the
    flag set before, it is set after [register], whatever the dependency
    check gives, and [draw] goes on showing the failure label; [unregister]
    leaves the preferences as they are. *)
Theorem install_failed_is_never_cleared (env : Env) (w : World)
    (prefs : ASEAddonPreferences) :
  addons w !! module_name env = Some prefs →
  install_failed prefs = true →
  (∃ prefs', addons (register env w).2 !! module_name env = Some prefs'
     ∧ install_failed prefs' = true
     ∧ ∀ layout, ASEAddonPreferences_draw prefs' layout
                 = layout ++ [ui_label msg_install_failed "ERROR"])
  ∧ addons (unregister w).2 = addons w.
Proof.
  intros Hlook Hflag. split; [|apply unregister_state].
  assert (Hdraw : ∀ p, install_failed p = true →
            ∀ layout, ASEAddonPreferences_draw p layout
                      = layout ++ [ui_label msg_install_failed "ERROR"]).
  { intros p Hp layout. unfold ASEAddonPreferences_draw. by rewrite Hp. }
  destruct (register_cases env w)
    as [(_ & msg & Hr)|[(_ & _ & _ & [Ha|[_ Ha]])|(_ & _ & _ & _ & _ & Ha)]];
    rewrite ?Hr, ?Ha; simpl; rewrite ?lookup_insert_eq; eauto.
Qed.

Lemma install_failed_is_never_cleared_witness :
  (register env_ase_present world_failed_before).1 = Return tt
  ∧ cls_ImportASEMolecule ∈ classes (register env_ase_present world_failed_before).2
  ∧ ∃ prefs', addons (register env_ase_present world_failed_before).2 !! addon_name
              = Some prefs'
      ∧ ASEAddonPreferences_draw prefs' [] = [ui_label msg_install_failed "ERROR"].
Proof.
  split; [reflexivity|]. split.
  { apply list_elem_of_In. right. right. left. reflexivity. }
  destruct (proj1 (install_failed_is_never_cleared env_ase_present world_failed_before
                     {| install_failed := true |} eq_refl eq_refl))
    as (prefs' & Hlook & _ & Hdraw).
  exists prefs'. split; [exact Hlook | apply (Hdraw [])].
Defined.

(** X10.  [unregister] undoes [register]: from a world with neither the
    operator nor the menu entry, after a [register] that returned,
    [unregister] returns and the class registry and the import menu are as
    they were before [register].  [sys.path] and the preferences keep what
    [register] wrote. *)
Theorem register_unregister_round_trip (env : Env) (w w1 : World) :
  cls_ImportASEMolecule ∉ classes w →
  fn_menu_func_import ∉ import_menu w →
  register env w = (Return tt, w1) →
  ∃ w2, unregister w1 = (Return tt, w2)
    ∧ classes w2 = classes w
    ∧ import_menu w2 = import_menu w
    ∧ addons w2 = addons w1 ∧ sys_path w2 = sys_path w1.
Proof.
  intros Hop Hmenu Hrun.
  assert (Hshape : (cls_ASEAddonPreferences ∉ classes w)
    ∧ (classes w1 = classes w ++ [cls_ASEAddonPreferences]
       ∧ import_menu w1 = import_menu w
       ∨ classes w1 = classes w ++ [cls_ASEAddonPreferences; cls_ImportASEMolecule]
         ∧ import_menu w1 = import_menu w ++ [fn_menu_func_import])).
  { destruct (register_cases env w)
      as [(_ & msg & Hr)|[(Hp & Hc & Hm & _)|(Hp & _ & _ & Hc & Hm & _)]];
      rewrite Hrun in *; simpl in *; [done| |]; auto. }
  destruct Hshape as [Hp Hshape].
  assert (Hin : cls_ASEAddonPreferences ∈ classes w1).
  { destruct Hshape as [[-> _]|[-> _]];
      apply list_elem_of_In, in_app_iff; right; by left. }
  destruct (unregister_registered w1 Hin) as (w2 & Hun & _).
  exists w2. split; [done|].
  destruct (unregister_state w1) as (Hc & Hm & Ha & Hs).
  rewrite Hun in Hc, Hm, Ha, Hs. simpl in *.
  rewrite Hc, Hm. destruct (filter_ne_app_own (classes w) Hp Hop) as [Hboth Hone].
  destruct Hshape as [[-> ->]|[-> ->]].
  - by rewrite Hone, (remove_first_absent _ _ Hmenu).
  - by rewrite Hboth, (remove_first_app_new _ _ Hmenu).
Qed.

Lemma register_unregister_round_trip_witness :
  ∃ w2, unregister (register env_installable world_enabled).2 = (Return tt, w2)
    ∧ classes w2 = classes world_enabled
    ∧ import_menu w2 = import_menu world_enabled
    ∧ addons w2 = addons (register env_installable world_enabled).2
    ∧ sys_path w2 = sys_path (register env_installable world_enabled).2.
Proof.
  apply (register_unregister_round_trip env_installable world_enabled).
  - intros Hin. apply list_elem_of_singleton in Hin. discriminate Hin.
  - intros Hin. apply list_elem_of_singleton in Hin. discriminate Hin.
  - reflexivity.
Defined.

(** X11.  [register] and [unregister] keep the registry well formed,
    whatever their outcome: no class is registered twice, and the operator is
    registered only beside the preferences class.  After [unregister] neither
    of the two classes is registered. *)
Theorem registry_ok_preserved (env : Env) (w : World) :
  registry_ok w →
  registry_ok (register env w).2
  ∧ registry_ok (unregister w).2
  ∧ (cls_ImportASEMolecule ∉ classes (unregister w).2)
  ∧ (cls_ASEAddonPreferences ∉ classes (unregister w).2).
Proof.
  intros [Hnd Hinv]. split; [|split; [|split]].
  - destruct (register_cases env w)
      as [(_ & msg & Hr)|[(Hp & Hc & _)|(Hp & Ho & _ & Hc & _)]].
    + rewrite Hr. done.
    + split; rewrite Hc.
      * apply NoDup_app. split; [done|]. split; [|apply NoDup_singleton].
        intros x Hx ->%list_elem_of_singleton. done.
      * intros _. apply list_elem_of_In, in_app_iff; right; by left.
    + split; rewrite Hc.
      * apply NoDup_app. split; [done|]. split.
        { intros x Hx [->|[->|[]%elem_of_nil]%elem_of_cons]%elem_of_cons; done. }
        apply NoDup_cons. split; [|apply NoDup_singleton].
        by intros ?%list_elem_of_singleton.
      * intros _. apply list_elem_of_In, in_app_iff; right; by left.
  - destruct (unregister_state w) as (Hc & _). split; rewrite Hc.
    + by do 2 apply NoDup_filter.
    + intros [_ [Hne _]%list_elem_of_filter]%list_elem_of_filter. done.
  - destruct (unregister_state w) as (-> & _).
    intros [_ [Hne _]%list_elem_of_filter]%list_elem_of_filter. done.
  - destruct (unregister_state w) as (-> & _).
    intros [Hne _]%list_elem_of_filter. done.
Qed.

Lemma registry_ok_preserved_witness :
  registry_ok (register env_installable world_enabled).2
  ∧ registry_ok (unregister world_enabled).2
  ∧ (cls_ImportASEMolecule ∉ classes (unregister world_enabled).2)
  ∧ (cls_ASEAddonPreferences ∉ classes (unregister world_enabled).2).
Proof.
  apply (registry_ok_preserved env_installable world_enabled).
  split.
  - apply NoDup_singleton.
  - intros Hin. apply list_elem_of_singleton in Hin. discriminate Hin.
Defined.

(** X12.  [register] only adds: whatever its outcome, the classes and the
    menu entries present before stay where they are, what is added to the
    registry is the preferences class or both of the module's classes, and
    what is added to the menu is [menu_func_import], with the operator and
    never without it. *)
Theorem register_only_adds (env : Env) (w : World) :
  let w' := (register env w).2 in
  (classes w' = classes w ∧ import_menu w' = import_menu w)
  ∨ (classes w' = classes w ++ [cls_ASEAddonPreferences]
     ∧ import_menu w' = import_menu w)
  ∨ (classes w' = classes w ++ [cls_ASEAddonPreferences; cls_ImportASEMolecule]
     ∧ import_menu w' = import_menu w ++ [fn_menu_func_import]).
Proof.
  cbv zeta.
  destruct (register_cases env w)
    as [(_ & msg & Hr)|[(_ & Hc & Hm & _)|(_ & _ & _ & Hc & Hm & _)]];
    [rewrite Hr|..]; auto.
Qed.

(** X13.  [unregister] only removes its own: whatever its outcome, the
    registry afterwards holds exactly the classes other than the module's
    two, in their order; the menu loses the first [menu_func_import] entry,
    if there is one, and nothing else; the preferences and [sys.path] are as
    before. *)
Theorem unregister_only_removes_own (w : World) :
  let w' := (unregister w).2 in
  classes w'
  = filter (λ c, c ≠ cls_ASEAddonPreferences ∧ c ≠ cls_ImportASEMolecule) (classes w)
  ∧ (∀ c, c ≠ cls_ASEAddonPreferences → c ≠ cls_ImportASEMolecule →
       c ∈ classes w' ↔ c ∈ classes w)
  ∧ import_menu w' = remove_first fn_menu_func_import (import_menu w)
  ∧ (fn_menu_func_import ∉ import_menu w → import_menu w' = import_menu w)
  ∧ filter (λ f, f ≠ fn_menu_func_import) (import_menu w')
    = filter (λ f, f ≠ fn_menu_func_import) (import_menu w)
  ∧ addons w' = addons w ∧ sys_path w' = sys_path w.
Proof.
  cbv zeta. destruct (unregister_state w) as (Hc & Hm & Ha & Hs).
  assert (Hc' : classes (unregister w).2
    = filter (λ c, c ≠ cls_ASEAddonPreferences ∧ c ≠ cls_ImportASEMolecule) (classes w)).
  { rewrite Hc. apply list_filter_filter. }
  split; [done|]. split.
  { intros c Hp Ho. rewrite Hc', list_elem_of_filter. tauto. }
  split; [done|]. split.
  { intros Hout. rewrite Hm. by apply remove_first_absent. }
  split; [|done]. rewrite Hm. clear.
  induction (import_menu w) as [|g l IH]; [done|]. simpl.
  destruct (decide (g = fn_menu_func_import)) as [->|Hne].
  - by rewrite filter_cons_False by (intros Hf; by apply Hf).
  - by rewrite !filter_cons_True, IH by done.
Qed.

Lemma unregister_only_removes_own_witness :
  cls_other "IMPORT_SCENE_OT_obj"
  ∈ classes (unregister (register env_installable world_enabled).2).2
  ∧ import_menu (unregister world_enabled).2 = import_menu world_enabled.
Proof.
  split.
  - apply (proj1 (proj2 (unregister_only_removes_own
                           (register env_installable world_enabled).2))
             (cls_other "IMPORT_SCENE_OT_obj")).
    + discriminate.
    + discriminate.
    + apply list_elem_of_In. left. reflexivity.
  - apply (proj1 (proj2 (proj2 (proj2 (unregister_only_removes_own world_enabled))))).
    intros Hin. apply list_elem_of_singleton in Hin. discriminate Hin.
Defined.

(** ** More on [ImportASEMolecule] *)



(** X15.  Whatever its outcome, the only calls [execute] makes are imports
    of [ui] and calls of [import_ase_molecule]: it registers nothing, touches
    no menu, prints nothing and starts no process.  When it returns, what it
    has done is exactly, file by file and in order, the import of [ui]
    followed by the call of [import_ase_molecule] for that file. *)
Theorem execute_effects (env : Env) (self : ImportASEMolecule) (w : World) :
  Forall (λ ev, is_import_of ".ui" ev || is_import_ase_molecule ev = true)
    (emitted (execute env self) w)
  ∧ (∀ s w', execute env self w = (Return s, w') →
       emitted (execute env self) w
       = flat_map (execute_file_events env self) (files self)).
Proof.
  unfold emitted. rewrite execute_eq. split.
  - destruct (execute_loop_event_kinds env self (files self) w) as (new & Ht & Hk).
    assert (Htr : trace (match execute_loop env self (files self) w with
                         | (Return _, w') => (Return ({["FINISHED"]} : gset string), w')
                         | (Raise e, w') => (Raise e, w')
                         end).2 = trace w ++ new).
    { by destruct (execute_loop env self (files self) w) as [[[]|e] w']. }
    by rewrite Htr, drop_trace_app.
  - intros s w' Hrun.
    destruct (execute_loop env self (files self) w) as [[[]|e] w0] eqn:Hloop;
      [|done].
    simplify_eq. simpl.
    by rewrite (execute_loop_trace env self _ w w' Hloop), drop_trace_app.
Qed.

Lemma execute_effects_witness :
  emitted (execute env_ase_present op_two_files) world_enabled
  = [ev_import ".ui";
     ev_import_ase_molecule [PyStr "/data/run1/h2o.xyz"; PyStr "h2o.xyz"]
       (execute_kwargs op_two_files);
     ev_import ".ui";
     ev_import_ase_molecule [PyStr "/data/run1/md.traj"; PyStr "md.traj"]
       (execute_kwargs op_two_files)].
Proof.
  apply (proj2 (execute_effects env_ase_present op_two_files world_enabled)
           {["FINISHED"]} (execute env_ase_present op_two_files world_enabled).2).
  reflexivity.
Defined.

(** X16.  The import dialog and the call agree: the properties [draw] shows
    are, each under its keyword ([zero_cell] as [shift_cell], the others
    under their own name), exactly the keyword arguments [execute] passes.
    [draw] shows each of them once, keeps what the layout held, and shows
    neither [files] nor [directory]. *)
Theorem draw_shows_what_execute_passes (self : ImportASEMolecule)
    (layout : list ui_item) :
  keyword_of_property <$> prop_names (ImportASEMolecule_draw self [])
  ≡ₚ (execute_kwargs self).*1
  ∧ NoDup (prop_names (ImportASEMolecule_draw self []))
  ∧ ImportASEMolecule_draw self layout = layout ++ ImportASEMolecule_draw self []
  ∧ ("files" ∉ prop_names (ImportASEMolecule_draw self []))
  ∧ ("directory" ∉ prop_names (ImportASEMolecule_draw self [])).
Proof.
  split; [|split; [|split; [done|split]]]; simpl.
  - apply (bool_decide_unpack _). by vm_compute.
  - apply (bool_decide_unpack _). by vm_compute.
  - apply (bool_decide_unpack _). by vm_compute.
  - apply (bool_decide_unpack _). by vm_compute.
Qed.
